(** * Cohere_THA: the Wikipedia-context chat pipeline

    A shallow embedding of the request path of the application:
    - [app/schemas/chat.py]        request and response schemas,
    - [app/services/wikipedia.py]  search, summary resolution and fallback,
    - [app/services/cohere_client.py] context formatting, prompt building,
      generation,
    - [app/api/v1/chat.py]         the chat endpoint,
    - [app/api/v1/debug.py]        the health endpoint.

    Python [str] values are modelled as [string]; a character is a code
    point below 256.  Python dicts with string values are [gmap string
    string].  External collaborators (HTTP endpoints, the generation
    client, the database session, the clock) are fields of a [world]
    record; every call to one of them is logged in a trace. *)

From Stdlib Require Import ZArith QArith Ascii String List Lia Bool.
From stdpp Require Import base option strings gmap list.

Local Open Scope string_scope.
Local Open Scope Z_scope.

(** ** Python string operations *)

Module PyStr.

(** [str.isspace] on one character (code points below 256):
    TAB, LF, VT, FF, CR, FS, GS, RS, US, SPACE, NEL, NBSP. *)
Definition isspace (c : ascii) : bool :=
  let n := nat_of_ascii c in
  ((9 <=? n) && (n <=? 13) || (28 <=? n) && (n <=? 32)
   || (n =? 133) || (n =? 160))%nat.

Fixpoint lstrip (s : string) : string :=
  match s with
  | EmptyString => EmptyString
  | String c s' => if isspace c then lstrip s' else s
  end.

Fixpoint rstrip (s : string) : string :=
  match s with
  | EmptyString => EmptyString
  | String c s' =>
      match rstrip s' with
      | EmptyString => if isspace c then EmptyString else String c EmptyString
      | r => String c r
      end
  end.

(** [s.strip()] *)
Definition strip (s : string) : string := lstrip (rstrip s).

(** Every character is white space (true of the empty string). *)
Fixpoint all_space (s : string) : bool :=
  match s with
  | EmptyString => true
  | String c s' => isspace c && all_space s'
  end.

(** Truth value of a [str]: non-empty. *)
Definition truthy (s : string) : bool :=
  match s with EmptyString => false | _ => true end.

(** [s[:n]] for [n >= 0]. *)
Fixpoint take (n : nat) (s : string) : string :=
  match n, s with
  | S k, String c s' => String c (take k s')
  | _, _ => EmptyString
  end.

Fixpoint drop (n : nat) (s : string) : string :=
  match n, s with
  | S k, String _ s' => drop k s'
  | _, _ => s
  end.

Fixpoint starts_with (p s : string) : bool :=
  match p, s with
  | EmptyString, _ => true
  | String a p', String b s' => Ascii.eqb a b && starts_with p' s'
  | String _ _, EmptyString => false
  end.

(** The scan of [s.replace(old, new)] for a non-empty [old]: left to
    right, non-overlapping; [skip] counts the characters of a match
    that are still to be passed over. *)
Fixpoint replace_scan (old new : string) (skip : nat) (s : string) : string :=
  match s with
  | EmptyString => EmptyString
  | String c s' =>
      match skip with
      | S k => replace_scan old new k s'
      | O =>
          if starts_with old s
          then new +:+ replace_scan old new (Nat.pred (String.length old)) s'
          else String c (replace_scan old new O s')
      end
  end.

(** With an empty [old], Python puts [new] before every character and
    at the end. *)
Fixpoint replace_empty (new s : string) : string :=
  match s with
  | EmptyString => new
  | String c s' => new +:+ String c (replace_empty new s')
  end.

(** [s.replace(old, new)] *)
Definition replace (old new s : string) : string :=
  match old with
  | EmptyString => replace_empty new s
  | _ => replace_scan old new O s
  end.

(** Character-wise substitution, to state what [replace] does with
    one-character arguments. *)
Fixpoint map_chars (f : ascii -> ascii) (s : string) : string :=
  match s with
  | EmptyString => EmptyString
  | String c s' => String (f c) (map_chars f s')
  end.

(** [sep.join(parts)] *)
Fixpoint join (sep : string) (parts : list string) : string :=
  match parts with
  | [] => EmptyString
  | [p] => p
  | p :: ps => p +:+ sep +:+ join sep ps
  end.

Definition newline : string := String (ascii_of_nat 10) EmptyString.
Definition dquote : string := String (ascii_of_nat 34) EmptyString.

End PyStr.

(** ** Exceptions, results, events *)

(** The exception classes the request path can meet.  [Timeout],
    [ConnectionError] and [HTTPError] are subclasses of
    [requests.RequestException]. *)
Inductive exc_class : Type :=
| Timeout
| ConnectionError
| HTTPError
| JSONDecodeError
| KeyError
| TypeError
| ValidationError
| CohereError
| DatabaseError
| HTTPException (status_code : Z).

Record exn : Type := mkExn { exc_type : exc_class; exc_msg : string }.

(** [isinstance(e, requests.RequestException)] *)
Definition is_request_exception (e : exn) : bool :=
  match exc_type e with
  | Timeout | ConnectionError | HTTPError => true
  | _ => false
  end.

(** [str(e)] *)
Definition str_exn (e : exn) : string := exc_msg e.

Inductive result (A : Type) : Type :=
| Ok (a : A)
| Raise (e : exn).
Arguments Ok {A} a.
Arguments Raise {A} e.

(** *** Schemas and rows *)

(** [app/schemas/chat.py], [QueryRequest] after validation. *)
Record QueryRequest : Type := mkQueryRequest {
  query : string;
  max_tokens : Z;
  temperature : Q;
  use_wikipedia : bool
}.

(** [app/schemas/chat.py], [QueryResponse]. *)
Record QueryResponse : Type := mkQueryResponse {
  response : string;
  resp_query : string;
  wikipedia_sources : list string;
  timestamp : Z
}.

(** [app/models/chat.py], a [ChatHistory] row as the endpoint builds it.
    The columns [temperature] and [use_wikipedia] hold [str(...)] of the
    request's values; the row keeps the values themselves. *)
Record ChatHistory : Type := mkChatHistory {
  ch_query : string;
  ch_response : string;
  ch_wikipedia_sources : list string;
  ch_timestamp : Z;
  ch_max_tokens : Z;
  ch_temperature : Q;
  ch_use_wikipedia : bool
}.

(** One call to an external collaborator. *)
Inductive event : Type :=
| EvSearchGet (srsearch : string) (srlimit : Z)
| EvSummaryGet (url : string)
| EvCohereChat (message : string) (max_tokens : Z) (temperature : Q)
| EvDbCount
| EvDbAdd (row : ChatHistory)
| EvDbCommit
| EvDbRefresh
| EvDbRollback.

Definition trace := list event.

Definition is_search_event (ev : event) : bool :=
  match ev with EvSearchGet _ _ | EvSummaryGet _ => true | _ => false end.

Definition is_db_event (ev : event) : bool :=
  match ev with
  | EvDbCount | EvDbAdd _ | EvDbCommit | EvDbRefresh | EvDbRollback => true
  | _ => false
  end.

(** ** The effect monad: a trace of calls, and exceptions

    A computation takes the calls made so far and returns a value or a
    raised exception, with the calls extended.  Calls made before an
    exception is raised stay in the trace. *)

Definition M (A : Type) : Type := trace -> result A * trace.

Definition ret {A} (a : A) : M A := fun t => (Ok a, t).

Definition raise {A} (e : exn) : M A := fun t => (Raise e, t).

Definition bind {A B} (m : M A) (k : A -> M B) : M B :=
  fun t =>
    match m t with
    | (Ok a, t') => k a t'
    | (Raise e, t') => (Raise e, t')
    end.

(** [try: m  except Exception as e: h e] *)
Definition try_except {A} (m : M A) (h : exn -> M A) : M A :=
  fun t =>
    match m t with
    | (Ok a, t') => (Ok a, t')
    | (Raise e, t') => h e t'
    end.

(** A call to a collaborator: the outcome is the collaborator's answer
    given the calls so far; the call is appended to the trace. *)
Definition call {A} (ev : event) (answer : trace -> result A) : M A :=
  fun t => (answer t, (t ++ [ev])%list).

Declare Scope py_scope.
Delimit Scope py_scope with py.
Notation "x <- m ;; k" := (bind m (fun x => k))
  (at level 20, m at level 99, k at level 200) : py_scope.
Notation "m ;; k" := (bind m (fun _ => k))
  (at level 100, k at level 200, right associativity) : py_scope.
Notation "'try' m 'except' e => h" := (try_except m (fun e => h))
  (at level 20, m at level 200, e name, h at level 200) : py_scope.
Local Open Scope py_scope.

(** ** External collaborators *)

(** A [requests.Response]: the status code and the decoded body;
    [None] when [.json()] raises. *)
Record Response (A : Type) : Type := mkResponse {
  status_code : Z;
  json : option A
}.
Arguments mkResponse {A} _ _.
Arguments status_code {A} _.
Arguments json {A} _.

(** The search payload as the code reads it:
    [search_data["query"]["search"]], a list of hits; a hit is a dict
    with string values.  A field that is present has the type the
    MediaWiki API gives it. *)
Record QueryData : Type := mkQueryData {
  js_search : option (list (gmap string string))
}.
Record SearchData : Type := mkSearchData {
  js_query : option QueryData
}.

(** The summary payload as the code reads it: [extract] and
    [content_urls.desktop.page], each of which may be absent. *)
Record DesktopUrls : Type := mkDesktopUrls { js_page : option string }.
Record ContentUrls : Type := mkContentUrls { js_desktop : option DesktopUrls }.
Record SummaryData : Type := mkSummaryData {
  js_extract : option string;
  js_content_urls : option ContentUrls
}.

(** The object [client.chat] returns: [text] is [None] when the
    response carries no text (Python [None]). *)
Record ChatResponse : Type := mkChatResponse { text : option string }.

(** The world outside the process.  Each answer may depend on the calls
    made so far. *)
Record world : Type := mkWorld {
  (** [requests.get(search_url, params=..., headers=..., timeout=...)] *)
  search_get : trace -> string -> Z -> result (Response SearchData);
  (** [requests.get(f"{base_url}{title_}", headers=..., timeout=...)] *)
  summary_get : trace -> string -> result (Response SummaryData);
  (** [self.client.chat(message=, max_tokens=, temperature=)] *)
  cohere_chat : trace -> string -> Z -> Q -> result ChatResponse;
  (** [db.query(ChatHistory).count()] *)
  db_count : trace -> result Z;
  (** [db.add(row)], [db.commit()], [db.refresh(row)] *)
  db_add : trace -> ChatHistory -> result unit;
  db_commit : trace -> result unit;
  db_refresh : trace -> result unit;
  (** [db.rollback()] *)
  db_rollback_outcome : trace -> result unit;
  (** [datetime.utcnow()] *)
  utcnow : trace -> Z
}.

(** [app/core/config.py]: the defaults the services fall back on. *)
Module settings.
Definition wikipedia_max_results : Z := 3.
Definition default_max_tokens : Z := 300.
Definition default_temperature : Q := 7 # 10.
End settings.

(** A Python dict with string keys and values. *)
Abbreviation pydict := (gmap string string).

(** [d[k]]: raises [KeyError] when the key is absent. *)
Definition getitem (d : pydict) (k : string) : M string :=
  match d !! k with
  | Some v => ret v
  | None => raise (mkExn KeyError k)
  end.

(** [d.get(k, dflt)] *)
Definition dict_get (d : pydict) (k dflt : string) : string :=
  default dflt (d !! k).

(** [response.raise_for_status()] of the requests library: raises
    [HTTPError] for a client or server error status, 400 to 599. *)
Definition raise_for_status {A} (r : Response A) : M unit :=
  if (400 <=? status_code r) && (status_code r <? 600)
  then raise (mkExn HTTPError "HTTP error status")
  else ret tt.

(** [response.json()] *)
Definition response_json {A} (r : Response A) : M A :=
  match json r with
  | Some data => ret data
  | None => raise (mkExn JSONDecodeError "Expecting value")
  end.

(** ** [app/services/wikipedia.py] *)

Section WikipediaService.

Variable w : world.

Definition base_url : string :=
  "https://en.wikipedia.org/api/rest_v1/page/summary/".

Definition searchmatch_open : string :=
  "<span class=" +:+ PyStr.dquote +:+ "searchmatch" +:+ PyStr.dquote +:+ ">".

(** [_clean_snippet] *)
Definition _clean_snippet (snippet : string) : string :=
  PyStr.replace "</span>" EmptyString
    (PyStr.replace searchmatch_open EmptyString snippet).

(** [_get_article_summary]: [None] for a status other than 200. *)
Definition _get_article_summary (title : string) : M (option pydict) :=
  let url := base_url +:+ PyStr.replace " " "_" title in
  summary_response <- call (EvSummaryGet url) (fun t => summary_get w t url) ;;
  if negb (status_code summary_response =? 200) then ret None
  else
    summary_data <- response_json summary_response ;;
    let extract := default EmptyString (js_extract summary_data) in
    let content_urls := default (mkContentUrls None) (js_content_urls summary_data) in
    let desktop := default (mkDesktopUrls None) (js_desktop content_urls) in
    ret (Some (<["title" := title]>
              (<["content" := extract]>
              (<["url" := default EmptyString (js_page desktop)]> ∅)))).

(** [_create_fallback_result] *)
Definition _create_fallback_result (title snippet : string) : pydict :=
  <["title" := title]>
  (<["content" := snippet]>
  (<["url" := "https://en.wikipedia.org/wiki/" +:+ PyStr.replace " " "_" title]> ∅)).

(** The body of the [for item in search_results] loop of
    [_extract_article_content], with [results] the list built so far.
    [item["title"]] stands outside the [try]. *)
Definition extract_item (item : pydict) (results : list pydict) : M (list pydict) :=
  title <- getitem item "title" ;;
  let snippet := _clean_snippet (dict_get item "snippet" EmptyString) in
  try
    (article_content <- _get_article_summary title ;;
     match article_content with
     | Some article =>
         if bool_decide (article = ∅)
         then ret (results ++ [_create_fallback_result title snippet])%list
         else ret (results ++ [article])%list
     | None => ret (results ++ [_create_fallback_result title snippet])%list
     end)
  except e => ret (results ++ [_create_fallback_result title snippet])%list.

Fixpoint extract_loop (search_results : list pydict) (results : list pydict)
  : M (list pydict) :=
  match search_results with
  | [] => ret results
  | item :: rest =>
      results' <- extract_item item results ;;
      extract_loop rest results'
  end.

(** [_extract_article_content] *)
Definition _extract_article_content (search_results : list pydict) : M (list pydict) :=
  extract_loop search_results [].

(** [_perform_search] *)
Definition _perform_search (query : string) (limit : Z) : M (list pydict) :=
  search_response <- call (EvSearchGet query limit)
                          (fun t => search_get w t query limit) ;;
  raise_for_status search_response ;;
  search_data <- response_json search_response ;;
  match js_query search_data with
  | Some query_data =>
      match js_search query_data with
      | Some search_results => _extract_article_content search_results
      | None => ret []
      end
  | None => ret []
  end.

(** [search_wikipedia] *)
Definition search_wikipedia (query : string) (limit : option Z) : M (list pydict) :=
  let limit := default settings.wikipedia_max_results limit in
  try _perform_search query limit
  except e => if is_request_exception e then ret [] else ret [].

End WikipediaService.

(** ** [app/services/cohere_client.py] *)

Section CohereService.

Variable w : world.

Definition prompt_head : string :=
  "Based on the following Wikipedia information, please answer the user's question comprehensively and mention that you're using Wikipedia sources:"
  +:+ PyStr.newline +:+ PyStr.newline
  +:+ "Wikipedia Context:" +:+ PyStr.newline.

Definition prompt_question : string :=
  PyStr.newline +:+ PyStr.newline +:+ "User Question: ".

Definition prompt_tail : string :=
  PyStr.newline +:+ PyStr.newline
  +:+ "Please provide a detailed answer using the Wikipedia information provided above. Start your response by acknowledging that you found relevant information from Wikipedia.".

(** [_prepare_message]; [if wikipedia_context:] holds for a string
    that is neither [None] nor empty. *)
Definition _prepare_message (query : string) (wikipedia_context : option string) : string :=
  match wikipedia_context with
  | Some context =>
      if PyStr.truthy context
      then prompt_head +:+ context +:+ prompt_question +:+ query +:+ prompt_tail
      else query
  | None => query
  end.

(** The rendering of one result in [format_wikipedia_context]. *)
Definition format_result (result : pydict) : string :=
  let title := dict_get result "title" "Unknown" in
  let content := dict_get result "content" EmptyString in
  let truncated_content :=
    if (800 <? String.length content)%nat
    then PyStr.take 800 content +:+ "..."
    else content in
  "Wikipedia Article: " +:+ title +:+ PyStr.newline +:+ truncated_content.

(** [format_wikipedia_context] *)
Definition format_wikipedia_context (wikipedia_results : list pydict) : string :=
  match wikipedia_results with
  | [] => EmptyString
  | _ => PyStr.join (PyStr.newline +:+ PyStr.newline)
                    (map format_result wikipedia_results)
  end.

(** [generate_response]: the text of the provider's response; any
    exception is logged and raised again.  The length of the text is
    taken for the log line, which raises [TypeError] on [None]. *)
Definition generate_response (query : string) (max_tokens : option Z)
    (temperature : option Q) (wikipedia_context : option string) : M string :=
  let max_tokens := default settings.default_max_tokens max_tokens in
  let temperature := default settings.default_temperature temperature in
  try
    (let message := _prepare_message query wikipedia_context in
     response <- call (EvCohereChat message max_tokens temperature)
                      (fun t => cohere_chat w t message max_tokens temperature) ;;
     match text response with
     | Some response_text => ret response_text
     | None => raise (mkExn TypeError "object of type 'NoneType' has no len()")
     end)
  except e => raise e.

End CohereService.

(** ** [app/api/v1/chat.py] *)

Section ChatEndpoint.

Variable w : world.

(** [[result.get("url", "") for result in wiki_results if result.get("url")]] *)
Definition collect_sources (wiki_results : list pydict) : list string :=
  map (fun result => dict_get result "url" EmptyString)
      (List.filter (fun result => PyStr.truthy (dict_get result "url" EmptyString))
                   wiki_results).

Definition now : M Z := fun t => (Ok (utcnow w t), t).

(** Lines 52 to 75 of [chat_endpoint]: the pair of
    [wikipedia_sources] and [wikipedia_context]. *)
Definition gather_context (request : QueryRequest)
  : M (list string * option string) :=
  if use_wikipedia request
  then
    wiki_results <- search_wikipedia w (query request) (Some 2) ;;
    match wiki_results with
    | _ :: _ =>
        ret (collect_sources wiki_results,
             Some (format_wikipedia_context wiki_results))
    | [] => ret ([], None)
    end
  else ret ([], None).

(** Lines 52 to 95 of [chat_endpoint]: context lookup, generation, and
    the response object. *)
Definition chat_pipeline (request : QueryRequest) : M QueryResponse :=
  ctx <- gather_context request ;;
  let wikipedia_sources := fst ctx in
  let wikipedia_context := snd ctx in
  response_text <- generate_response w (query request)
                     (Some (max_tokens request)) (Some (temperature request))
                     wikipedia_context ;;
  timestamp <- now ;;
  ret {| response := response_text;
         resp_query := query request;
         wikipedia_sources := wikipedia_sources;
         timestamp := timestamp |}.

(** Lines 100 to 111: the row, [db.add], [db.commit], [db.refresh]. *)
Definition save_conversation (request : QueryRequest) (chat_response : QueryResponse)
  : M unit :=
  let db_chat :=
    {| ch_query := query request;
       ch_response := response chat_response;
       ch_wikipedia_sources := wikipedia_sources chat_response;
       ch_timestamp := timestamp chat_response;
       ch_max_tokens := max_tokens request;
       ch_temperature := temperature request;
       ch_use_wikipedia := use_wikipedia request |} in
  call (EvDbAdd db_chat) (fun t => db_add w t db_chat) ;;
  call EvDbCommit (db_commit w) ;;
  call EvDbRefresh (db_refresh w).

(** [db.rollback()], which may raise like any other call on the
    session. *)
Definition db_rollback : M unit := call EvDbRollback (db_rollback_outcome w).

(** [chat_endpoint] *)
Definition chat_endpoint (request : QueryRequest) : M QueryResponse :=
  try
    (chat_response <- chat_pipeline request ;;
     (try save_conversation request chat_response
      except db_error => db_rollback) ;;
     ret chat_response)
  except e =>
    raise (mkExn (HTTPException 500) ("Error processing request: " +:+ str_exn e)).

End ChatEndpoint.

(** ** [app/schemas/chat.py]: validation at the boundary *)

(** The body of a [POST /chat] before validation; [None] is an absent
    field.  [temperature] is a rational: the schema only compares it
    with [0.0] and [1.0]. *)
Record RawQueryRequest : Type := mkRawQueryRequest {
  raw_query : option string;
  raw_max_tokens : option Z;
  raw_temperature : option Q;
  raw_use_wikipedia : option bool
}.

(** [Field(..., min_length=1, max_length=2000)], then [validate_query]. *)
Definition validate_query_field (v : option string) : option string :=
  match v with
  | None => None
  | Some v =>
      if ((1 <=? String.length v) && (String.length v <=? 2000))%nat
      then (if PyStr.truthy (PyStr.strip v) then Some (PyStr.strip v) else None)
      else None
  end.

(** [Field(300, ge=1, le=2000)] *)
Definition validate_max_tokens_field (v : option Z) : option Z :=
  match v with
  | None => Some 300
  | Some v => if (1 <=? v) && (v <=? 2000) then Some v else None
  end.

(** [Field(0.7, ge=0.0, le=1.0)] *)
Definition validate_temperature_field (v : option Q) : option Q :=
  match v with
  | None => Some (7 # 10)
  | Some v => if Qle_bool 0 v && Qle_bool v 1 then Some v else None
  end.

(** [Field(True)] *)
Definition validate_use_wikipedia_field (v : option bool) : option bool :=
  Some (default true v).

(** Construction of a [QueryRequest] from the body: [None] when any
    field fails. *)
Definition QueryRequest_validate (raw : RawQueryRequest) : option QueryRequest :=
  match validate_query_field (raw_query raw),
        validate_max_tokens_field (raw_max_tokens raw),
        validate_temperature_field (raw_temperature raw),
        validate_use_wikipedia_field (raw_use_wikipedia raw) with
  | Some q, Some m, Some t, Some u =>
      Some {| query := q; max_tokens := m; temperature := t; use_wikipedia := u |}
  | _, _, _, _ => None
  end.

(** What the transport layer sends back. *)
Inductive http_response (A : Type) : Type :=
| Http200 (body : A)
| HttpError (status : Z) (detail : string).
Arguments Http200 {A} body.
Arguments HttpError {A} status detail.

(** The framework around an endpoint: a returned value is a 200, an
    [HTTPException] is its status and detail, any other exception is a
    bare 500. *)
Definition serve {A} (m : M A) (t : trace) : http_response A * trace :=
  match m t with
  | (Ok a, t') => (Http200 a, t')
  | (Raise e, t') =>
      match exc_type e with
      | HTTPException status => (HttpError status (exc_msg e), t')
      | _ => (HttpError 500 "Internal Server Error", t')
      end
  end.

(** [POST /chat]: the body is validated against [QueryRequest] before
    the endpoint function is entered; a body that fails is answered
    with 422. *)
Definition post_chat (w : world) (raw : RawQueryRequest) (t : trace)
  : http_response QueryResponse * trace :=
  match QueryRequest_validate raw with
  | Some request => serve (chat_endpoint w request) t
  | None => (HttpError 422 "Unprocessable Entity", t)
  end.

(** ** [app/api/v1/debug.py]: the health endpoint *)

(** A Python value that is an [int] or a [str]. *)
Inductive pyval : Type :=
| PyInt (z : Z)
| PyStr (s : string).

Module PyNum.

Definition digit (c : ascii) : option Z :=
  let n := nat_of_ascii c in
  if ((48 <=? n) && (n <=? 57))%nat then Some (Z.of_nat n - 48) else None.

(** Decimal digits, with single underscores between digits. *)
Fixpoint digits (acc : Z) (after_digit : bool) (s : string) : option Z :=
  match s with
  | EmptyString => if after_digit then Some acc else None
  | String c s' =>
      match digit c with
      | Some d => digits (10 * acc + d) true s'
      | None =>
          if Ascii.eqb c "_"%char && after_digit
          then match s' with
               | String c' _ =>
                   match digit c' with
                   | Some _ => digits acc false s'
                   | None => None
                   end
               | EmptyString => None
               end
          else None
      end
  end.

(** [int(s)] for a string: white space around, a sign, decimal digits. *)
Definition of_str (s : string) : option Z :=
  match PyStr.strip s with
  | String "-"%char s' => Z.opp <$> digits 0 false s'
  | String "+"%char s' => digits 0 false s'
  | s' => digits 0 false s'
  end.

End PyNum.

(** An [int] field of a schema: an [int] passes, a [str] passes when it
    reads as an integer. *)
Definition validate_int (v : pyval) : M Z :=
  match v with
  | PyInt z => ret z
  | PyStr s =>
      match PyNum.of_str s with
      | Some z => ret z
      | None => raise (mkExn ValidationError "Input should be a valid integer")
      end
  end.

(** [app/schemas/chat.py], [HealthCheckResponse]. *)
Record HealthCheckResponse : Type := mkHealthCheckResponse {
  status : string;
  service : string;
  total_conversations : Z;
  database_status : string;
  features : gmap string bool
}.

(** [HealthCheckResponse(status=, service=, total_conversations=,
    database_status=, features=)]: [total_conversations] is declared
    [int]. *)
Definition HealthCheckResponse_new (status service : string)
    (total_conversations : pyval) (database_status : string)
    (features : gmap string bool) : M HealthCheckResponse :=
  total <- validate_int total_conversations ;;
  ret {| status := status; service := service; total_conversations := total;
         database_status := database_status; features := features |}.

Section HealthEndpoint.

Variable w : world.

(** [health_check] *)
Definition health_check : M HealthCheckResponse :=
  probe <- (try (total_conversations <- call EvDbCount (db_count w) ;;
                 ret (PyInt total_conversations, "connected"))
            except e => ret (PyStr "unknown", "error: " +:+ str_exn e)) ;;
  HealthCheckResponse_new
    "healthy"
    "cohere-chat-api-with-wikipedia-postgresql"
    (fst probe)
    (snd probe)
    (<["wikipedia_integration" := true]>
     (<["chat_history" := true]>
     (<["tool_calling" := true]>
     (<["postgresql_storage" := true]> ∅)))).

(** [GET /health] *)
Definition get_health (t : trace) : http_response HealthCheckResponse * trace :=
  serve health_check t.

End HealthEndpoint.

(** ** Auxiliary definitions for the properties *)

(** *** The behaviour of single steps, in closed form *)

Definition space_to_underscore (c : ascii) : ascii :=
  if Ascii.eqb c " "%char then "_"%char else c.

Definition fallback_url (title : string) : string :=
  "https://en.wikipedia.org/wiki/" +:+ PyStr.map_chars space_to_underscore title.

Definition summary_url (title : string) : string :=
  base_url +:+ PyStr.replace " " "_" title.

(** The dict [_get_article_summary] builds from a decoded payload. *)
Definition summary_article (title : string) (data : SummaryData) : pydict :=
  <["title" := title]>
  (<["content" := default EmptyString (js_extract data)]>
  (<["url" := default EmptyString
                (js_page (default (mkDesktopUrls None)
                   (js_desktop (default (mkContentUrls None)
                      (js_content_urls data)))))]> ∅)).

(** What a hit resolves to, by the outcome of the summary request:
    the summary dict for a 200 with a decodable body, the fallback
    otherwise. *)
Definition resolved_article (title snippet : string)
    (outcome : result (Response SummaryData)) : pydict :=
  match outcome with
  | Ok resp =>
      if status_code resp =? 200
      then match json resp with
           | Some data => summary_article title data
           | None => _create_fallback_result title snippet
           end
      else _create_fallback_result title snippet
  | Raise _ => _create_fallback_result title snippet
  end.

(** The outcome of the search request as the code treats it: the hits
    it goes on to resolve, or nothing. *)
Definition search_hits (outcome : result (Response SearchData))
  : option (list pydict) :=
  match outcome with
  | Ok resp =>
      if (400 <=? status_code resp) && (status_code resp <? 600) then None
      else match json resp with
           | Some data =>
               match js_query data with
               | Some query_data => js_search query_data
               | None => None
               end
           | None => None
           end
  | Raise _ => None
  end.

Definition only_search_events (es : trace) : Prop :=
  forallb is_search_event es = true.

(** The one generation call of a request whose context lookup ended in
    [t1] with [ctx]. *)
Definition generation_call (request : QueryRequest)
    (ctx : list string * option string) : event :=
  EvCohereChat (_prepare_message (query request) (snd ctx))
               (max_tokens request) (temperature request).

Definition generation_outcome (w : world) (request : QueryRequest)
    (ctx : list string * option string) (t1 : trace) : result ChatResponse :=
  cohere_chat w t1 (_prepare_message (query request) (snd ctx))
              (max_tokens request) (temperature request).

(** The response object of a request whose context lookup ended in [t1]
    with [ctx] and whose generation call returned [response_text]. *)
Definition computed_response (w : world) (request : QueryRequest)
    (ctx : list string * option string) (t1 : trace) (response_text : string)
  : QueryResponse :=
  {| response := response_text;
     resp_query := query request;
     wikipedia_sources := fst ctx;
     timestamp := utcnow w (t1 ++ [generation_call request ctx])%list |}.

(** *** Failure of a collaborator, as the code sees it and as the
    specification words it *)



(** The search request failed as the code sees it: the request raised,
    the status is a client or server error, the body does not decode, or
    the payload has no [query] or no [query.search]. *)
Definition search_failed (outcome : result (Response SearchData)) : Prop :=
  match outcome with
  | Raise _ => True
  | Ok resp =>
      400 <= status_code resp < 600
      \/ match json resp with
         | None => True
         | Some data =>
             match js_query data with
             | None => True
             | Some query_data => js_search query_data = None
             end
         end
  end.

(** The search request failed as the specification words it: the status
    test is "outside 200..299". *)
Definition search_failed_spec (outcome : result (Response SearchData)) : Prop :=
  match outcome with
  | Raise _ => True
  | Ok resp =>
      ~ (200 <= status_code resp < 300)
      \/ match json resp with
         | None => True
         | Some data =>
             match js_query data with
             | None => True
             | Some query_data => js_search query_data = None
             end
         end
  end.

(** The generation call failed as the code sees it: the client raised,
    or the response carries no text. *)
Definition generation_failed (outcome : result ChatResponse) : Prop :=
  match outcome with
  | Raise _ => True
  | Ok resp => text resp = None
  end.

(** The generation call failed as the specification words it: an empty
    text is a failure too. *)
Definition generation_failed_spec (outcome : result ChatResponse) : Prop :=
  match outcome with
  | Raise _ => True
  | Ok resp => text resp = None \/ text resp = Some EmptyString
  end.

(** A body that the specification calls invalid: [max_tokens] outside
    1..2000, [temperature] outside 0..1, or a query that is empty, all
    white space, or longer than 2000 characters. *)
Definition invalid_request (raw : RawQueryRequest) : Prop :=
  (exists m, raw_max_tokens raw = Some m /\ (m < 1 \/ 2000 < m))
  \/ (exists x, raw_temperature raw = Some x /\ (x < 0 \/ 1 < x)%Q)
  \/ (exists q, raw_query raw = Some q
                /\ (q = EmptyString \/ PyStr.all_space q = true
                    \/ (2000 < String.length q)%nat)).

(** *** Sample inputs and worlds *)

(** A string of [n] copies of one character. *)
Fixpoint repeat_char (c : ascii) (n : nat) : string :=
  match n with
  | O => EmptyString
  | S k => String c (repeat_char c k)
  end.

Definition long_article : pydict :=
  <["title" := "Quantum computing"]>
  (<["content" := repeat_char "q"%char 801]>
  (<["url" := "https://en.wikipedia.org/wiki/Quantum_computing"]> ∅)).

Definition search_hit (title snippet : string) : pydict :=
  <["title" := title]> (<["snippet" := snippet]> ∅).

Definition search_payload (hits : list pydict) : SearchData :=
  mkSearchData (Some (mkQueryData (Some hits))).

Definition db_down : exn := mkExn DatabaseError "connection refused".

(** A world whose collaborators answer the same whatever was called
    before; its rollback returns. *)
Definition constant_world
    (search : result (Response SearchData))
    (summary : string -> result (Response SummaryData))
    (chat : result ChatResponse)
    (commit : result unit)
    (count : result Z) : world :=
  {| search_get := fun _ _ _ => search;
     summary_get := fun _ url => summary url;
     cohere_chat := fun _ _ _ _ => chat;
     db_count := fun _ => count;
     db_add := fun _ _ => Ok tt;
     db_commit := fun _ => commit;
     db_refresh := fun _ => Ok tt;
     db_rollback_outcome := fun _ => Ok tt;
     utcnow := fun _ => 1758061800 |}.

Definition plain_request : QueryRequest :=
  {| query := "What is quantum computing?"; max_tokens := 300;
     temperature := 7 # 10; use_wikipedia := false |}.

Definition context_request : QueryRequest :=
  {| query := "What is quantum computing?"; max_tokens := 300;
     temperature := 7 # 10; use_wikipedia := true |}.

Definition raw_plain_request : RawQueryRequest :=
  {| raw_query := Some "  What is quantum computing? ";
     raw_max_tokens := None;
     raw_temperature := None;
     raw_use_wikipedia := Some false |}.

Definition raw_bad_tokens : RawQueryRequest :=
  {| raw_query := Some "What is quantum computing?";
     raw_max_tokens := Some 2001;
     raw_temperature := Some (7 # 10);
     raw_use_wikipedia := Some true |}.

Definition answering_world : world :=
  constant_world (Raise (mkExn Timeout "timed out"))
                 (fun _ => Raise (mkExn Timeout "timed out"))
                 (Ok (mkChatResponse (Some "Quantum computing is...")))
                 (Ok tt) (Ok 42).

Definition db_failing_world : world :=
  constant_world (Raise (mkExn Timeout "timed out"))
                 (fun _ => Raise (mkExn Timeout "timed out"))
                 (Ok (mkChatResponse (Some "Quantum computing is...")))
                 (Raise db_down) (Raise db_down).

(** The database is gone: the commit raises, and so does the rollback. *)
Definition db_lost_world : world :=
  {| search_get := fun _ _ _ => Raise (mkExn Timeout "timed out");
     summary_get := fun _ _ => Raise (mkExn Timeout "timed out");
     cohere_chat := fun _ _ _ _ =>
                      Ok (mkChatResponse (Some "Quantum computing is..."));
     db_count := fun _ => Raise db_down;
     db_add := fun _ _ => Ok tt;
     db_commit := fun _ => Raise db_down;
     db_refresh := fun _ => Ok tt;
     db_rollback_outcome := fun _ => Raise (mkExn DatabaseError "server closed the connection");
     utcnow := fun _ => 1758061800 |}.

Definition search_down_world : world :=
  constant_world (Ok (mkResponse 503 None))
                 (fun _ => Raise (mkExn Timeout "timed out"))
                 (Ok (mkChatResponse (Some "Quantum computing is...")))
                 (Ok tt) (Ok 42).

Definition provider_down_world : world :=
  constant_world (Raise (mkExn Timeout "timed out"))
                 (fun _ => Raise (mkExn Timeout "timed out"))
                 (Raise (mkExn CohereError "invalid api token"))
                 (Ok tt) (Ok 42).

Definition empty_text_world : world :=
  constant_world (Raise (mkExn Timeout "timed out"))
                 (fun _ => Raise (mkExn Timeout "timed out"))
                 (Ok (mkChatResponse (Some EmptyString)))
                 (Ok tt) (Ok 42).



(** A 200 with an [extract] but without [content_urls]. *)
Definition no_url_world : world :=
  constant_world
    (Ok (mkResponse 200
           (Some (search_payload
                    [search_hit "Quantum computing" "a quantum b"]))))
    (fun _ => Ok (mkResponse 200
                    (Some (mkSummaryData (Some "Quantum computing is a field.") None))))
    (Ok (mkChatResponse (Some "Quantum computing is...")))
    (Ok tt) (Ok 42).

(** A 300 whose body is a well-formed search payload. *)
Definition multiple_choices_world : world :=
  constant_world
    (Ok (mkResponse 300
           (Some (search_payload
                    [search_hit "Quantum computing" "a quantum b"]))))
    (fun _ => Ok (mkResponse 404 None))
    (Ok (mkChatResponse (Some "Quantum computing is...")))
    (Ok tt) (Ok 42).

(** Two hits, each with a summary that carries a page URL. *)
Definition two_articles_world : world :=
  constant_world
    (Ok (mkResponse 200
           (Some (search_payload
                    [search_hit "Quantum computing" "a quantum b";
                     search_hit "Quantum mechanics" "c quantum d"]))))
    (fun url =>
       if String.eqb url (summary_url "Quantum computing")
       then Ok (mkResponse 200
                  (Some (mkSummaryData
                           (Some "Quantum computing is a field.")
                           (Some (mkContentUrls (Some (mkDesktopUrls
                              (Some "https://en.wikipedia.org/wiki/Quantum_computing"))))))))
       else Ok (mkResponse 200
                  (Some (mkSummaryData
                           (Some "Quantum mechanics is a theory.")
                           (Some (mkContentUrls (Some (mkDesktopUrls
                              (Some "https://en.wikipedia.org/wiki/Quantum_mechanics")))))))))
    (Ok (mkChatResponse (Some "Quantum computing is...")))
    (Ok tt) (Ok 42).

(** *** Unfolding the monad *)

Ltac run_monad := unfold bind, try_except, call, ret, raise; cbn beta iota.

(** * Further code of the request path and its neighbours *)

(** ** [app/services/cohere_client.py]: [CohereService.health_check] *)

Module cohere_service.

Section HealthCheck.

Variable w : world.

(** [health_check]: one minimal chat call; a response object is always
    true, so the test is on its text. *)
Definition health_check : M pydict :=
  try
    (test_response <- call (EvCohereChat "Test" 10 (1 # 10))
                           (fun t => cohere_chat w t "Test" 10 (1 # 10)) ;;
     if match text test_response with
        | Some response_text => PyStr.truthy response_text
        | None => false
        end
     then ret (<["status" := "healthy"]>
              (<["service" := "cohere_api"]>
              (<["message" := "API connection successful"]> ∅)))
     else ret (<["status" := "unhealthy"]>
              (<["service" := "cohere_api"]>
              (<["message" := "API returned empty response"]> ∅))))
  except e =>
    ret (<["status" := "unhealthy"]>
        (<["service" := "cohere_api"]>
        (<["message" := "API error: " +:+ str_exn e]> ∅))).

End HealthCheck.

End cohere_service.

(** ** [app/api/v1/debug.py]: the debug endpoints *)

(** The dict [debug_wikipedia_search] returns: the results branch or
    the error branch. *)
Inductive debug_wikipedia_result : Type :=
| DebugSearchResults (query : string) (results_found : Z)
                     (results : list pydict) (status : string)
| DebugSearchError (query : string) (error : string) (status : string).

(** The dict [debug_cohere] returns. *)
Record debug_cohere_result : Type := mkDebugCohere {
  dc_cohere_status : pydict;
  dc_status : string
}.

Section DebugEndpoints.

Variable w : world.

(** [debug_wikipedia_search] *)
Definition debug_wikipedia_search (query : string) : M debug_wikipedia_result :=
  try
    (results <- search_wikipedia w query (Some 3) ;;
     ret (DebugSearchResults query (Z.of_nat (length results)) results
            (match results with
             | _ :: _ => "success"
             | [] => "no_results"
             end)))
  except e => ret (DebugSearchError query (str_exn e) "error").

(** [debug_cohere] *)
Definition debug_cohere : M debug_cohere_result :=
  try
    (health_status <- cohere_service.health_check w ;;
     ret {| dc_cohere_status := health_status; dc_status := "success" |})
  except e =>
    ret {| dc_cohere_status :=
             <["status" := "error"]> (<["message" := str_exn e]> ∅);
           dc_status := "error" |}.

End DebugEndpoints.

(** ** Auxiliary definitions for the further properties *)

(** No character of [s] is [c]. *)
Fixpoint free_of (c : ascii) (s : string) : bool :=
  match s with
  | EmptyString => true
  | String a s' => negb (Ascii.eqb a c) && free_of c s'
  end.

(** The row [save_conversation] hands to [db.add]. *)
Definition saved_row (request : QueryRequest) (chat_response : QueryResponse)
  : ChatHistory :=
  {| ch_query := query request;
     ch_response := response chat_response;
     ch_wikipedia_sources := wikipedia_sources chat_response;
     ch_timestamp := timestamp chat_response;
     ch_max_tokens := max_tokens request;
     ch_temperature := temperature request;
     ch_use_wikipedia := use_wikipedia request |}.

Definition is_db_add (ev : event) : bool :=
  match ev with EvDbAdd _ => true | _ => false end.

(** The title a hit carries, for the request its resolution sends. *)
Definition hit_title (item : pydict) : string := dict_get item "title" EmptyString.

(** [sum] of a list of naturals. *)
Definition sum_nat (l : list nat) : nat := fold_right Nat.add 0%nat l.

Definition raw_defaults_request : RawQueryRequest :=
  {| raw_query := Some "  What is quantum computing? ";
     raw_max_tokens := None;
     raw_temperature := None;
     raw_use_wikipedia := None |}.

Definition two_hits : list pydict :=
  [search_hit "Quantum computing" "a quantum b";
   search_hit "Quantum mechanics" "c quantum d"].

Definition is_not_db_event (ev : event) : bool := negb (is_db_event ev).

Definition is_not_db_add (ev : event) : bool := negb (is_db_add ev).

(** ** [app/api/v1/chat.py]: the history endpoints *)

From Stdlib Require DecimalString.

Module History.

(** A stored row as the history endpoints read it.  [wikipedia_sources]
    and [timestamp] are nullable columns. *)
Record Row : Type := mkRow {
  row_id : Z;
  row_query : string;
  row_response : string;
  row_wikipedia_sources : option (list string);
  row_timestamp : option Z
}.

(** [app/schemas/chat.py], [ChatHistoryItem]. *)
Record ChatHistoryItem : Type := mkChatHistoryItem {
  item_id : Z;
  item_query : string;
  item_response : string;
  item_wikipedia_sources : list string;
  item_timestamp : Z
}.

(** [app/schemas/chat.py], [ChatHistoryResponse]. *)
Record ChatHistoryResponse : Type := mkChatHistoryResponse {
  history : list ChatHistoryItem;
  total_conversations : Z
}.

(** One call on the database session. *)
Inductive db_call : Type :=
| CallCount
| CallSelect (offset limit : Z)
| CallDelete
| CallCommit
| CallRollback.

(** The database behind the session; each answer may depend on the
    calls made so far. *)
Record database : Type := mkDatabase {
  (** [db.query(ChatHistory).count()] *)
  count : list db_call -> result Z;
  (** [db.query(ChatHistory).order_by(ChatHistory.timestamp.desc())
      .offset(offset).limit(limit).all()] *)
  select_recent : list db_call -> Z -> Z -> result (list Row);
  (** [db.query(ChatHistory).delete()] *)
  delete_all : list db_call -> result Z;
  (** [db.commit()] *)
  commit : list db_call -> result unit;
  (** [db.rollback()] *)
  rollback_outcome : list db_call -> result unit
}.

(** Computations over the session: the calls so far, a value or an
    exception. *)
Definition Session (A : Type) : Type := list db_call -> result A * list db_call.

Definition sret {A} (a : A) : Session A := fun t => (Ok a, t).

Definition sraise {A} (e : exn) : Session A := fun t => (Raise e, t).

Definition sbind {A B} (m : Session A) (k : A -> Session B) : Session B :=
  fun t =>
    match m t with
    | (Ok a, t') => k a t'
    | (Raise e, t') => (Raise e, t')
    end.

Definition stry {A} (m : Session A) (h : exn -> Session A) : Session A :=
  fun t =>
    match m t with
    | (Ok a, t') => (Ok a, t')
    | (Raise e, t') => h e t'
    end.

Definition scall {A} (c : db_call) (answer : list db_call -> result A) : Session A :=
  fun t => (answer t, (t ++ [c])%list).

Declare Scope session_scope.
Notation "x <- m ;; k" := (sbind m (fun x => k))
  (at level 20, m at level 99, k at level 200) : session_scope.
Notation "m ;; k" := (sbind m (fun _ => k))
  (at level 100, k at level 200, right associativity) : session_scope.
Notation "'try' m 'except' e => h" := (stry m (fun e => h))
  (at level 20, m at level 200, e name, h at level 200) : session_scope.
Local Open Scope session_scope.

(** [ChatHistoryItem(id=, query=, response=, wikipedia_sources=
    chat.wikipedia_sources or [], timestamp=)]: [timestamp] is a
    required [datetime], so [None] is refused with a validation error
    (its message here abbreviates the schema library's report). *)
Definition make_item (chat : Row) : Session ChatHistoryItem :=
  match row_timestamp chat with
  | Some ts =>
      sret {| item_id := row_id chat;
              item_query := row_query chat;
              item_response := row_response chat;
              item_wikipedia_sources :=
                match row_wikipedia_sources chat with
                | Some (source :: sources) => source :: sources
                | Some [] | None => []
                end;
              item_timestamp := ts |}
  | None => sraise (mkExn ValidationError "Input should be a valid datetime")
  end.

(** The list comprehension over [db_chats]. *)
Fixpoint make_items (db_chats : list Row) : Session (list ChatHistoryItem) :=
  match db_chats with
  | [] => sret []
  | chat :: rest =>
      item <- make_item chat ;;
      items <- make_items rest ;;
      sret (item :: items)
  end.

Section Endpoints.

Variable db : database.

(** [get_chat_history] *)
Definition get_chat_history (limit offset : Z) : Session ChatHistoryResponse :=
  try
    (total_count <- scall CallCount (count db) ;;
     db_chats <- scall (CallSelect offset limit)
                       (fun t => select_recent db t offset limit) ;;
     history_items <- make_items db_chats ;;
     sret {| history := history_items; total_conversations := total_count |})
  except e =>
    sraise (mkExn (HTTPException 500)
              ("Error retrieving chat history: " +:+ str_exn e)).

(** [str(n)] for an [int]. *)
Definition str_int (n : Z) : string :=
  DecimalString.NilZero.string_of_int (Z.to_int n).

(** [db.rollback()], which may raise like any other call on the
    session. *)
Definition rollback : Session unit := scall CallRollback (rollback_outcome db).

(** [clear_chat_history]: the message of the returned dict. *)
Definition clear_chat_history : Session string :=
  try
    (deleted_count <- scall CallCount (count db) ;;
     scall CallDelete (delete_all db) ;;
     scall CallCommit (commit db) ;;
     sret ("Chat history cleared successfully. Deleted "
           +:+ str_int deleted_count +:+ " records."))
  except e =>
    (rollback ;;
     sraise (mkExn (HTTPException 500)
               ("Error clearing chat history: " +:+ str_exn e))).

End Endpoints.

(** The item a row with a time stamp is listed as. *)
Definition item_of (chat : Row) (ts : Z) : ChatHistoryItem :=
  {| item_id := row_id chat;
     item_query := row_query chat;
     item_response := row_response chat;
     item_wikipedia_sources := default [] (row_wikipedia_sources chat);
     item_timestamp := ts |}.

Definition sample_rows : list Row :=
  [mkRow 2 "What is quantum computing?" "Quantum computing is..."
     (Some ["https://en.wikipedia.org/wiki/Quantum_computing"]) (Some 1758061800);
   mkRow 1 "Hello" "Hi" None (Some 1758061700)].

Definition sample_database : database :=
  {| count := fun _ => Ok 2;
     select_recent := fun _ _ _ => Ok sample_rows;
     delete_all := fun _ => Ok 2;
     commit := fun _ => Ok tt;
     rollback_outcome := fun _ => Ok tt |}.

Definition broken_delete_database : database :=
  {| count := fun _ => Ok 2;
     select_recent := fun _ _ _ => Ok sample_rows;
     delete_all := fun _ => Raise (mkExn DatabaseError "connection refused");
     commit := fun _ => Ok tt;
     rollback_outcome := fun _ => Ok tt |}.

Definition lost_database : database :=
  {| count := fun _ => Ok 2;
     select_recent := fun _ _ _ => Ok sample_rows;
     delete_all := fun _ => Raise (mkExn DatabaseError "connection refused");
     commit := fun _ => Ok tt;
     rollback_outcome :=
       fun _ => Raise (mkExn DatabaseError "server closed the connection") |}.

Definition null_timestamp_database : database :=
  {| count := fun _ => Ok 1;
     select_recent := fun _ _ _ => Ok [mkRow 1 "Hello" "Hi" None None];
     delete_all := fun _ => Ok 1;
     commit := fun _ => Ok tt;
     rollback_outcome := fun _ => Ok tt |}.

Ltac run_session := unfold sbind, stry, scall, sret, sraise; cbn beta iota.

End History.

(** A call that returned. *)
Definition is_Some_ok {A} (r : result A) : Prop := exists a, r = Ok a.

(** ** [app/db/database.py]: what the start-up log line says of the
    database URL *)

(** [c in s] for a one-character [c]. *)
Fixpoint contains_char (c : ascii) (s : string) : bool :=
  match s with
  | EmptyString => false
  | String a s' => Ascii.eqb a c || contains_char c s'
  end.

(** [s.split(c)] for a one-character separator [c]. *)
Fixpoint split_char (c : ascii) (s : string) : list string :=
  match s with
  | EmptyString => [EmptyString]
  | String a s' =>
      if Ascii.eqb a c then EmptyString :: split_char c s'
      else match split_char c s' with
           | p :: ps => String a p :: ps
           | [] => [String a EmptyString]
           end
  end.

(** [settings.database_url.split('@')[1] if '@' in settings.database_url
    else 'local database']; [None] stands for an [IndexError]. *)
Definition logged_database_target (database_url : string) : option string :=
  if contains_char "@"%char database_url
  then nth_error (split_char "@"%char database_url) 1
  else Some "local database".

(** * Properties *)

Example strip_ex : PyStr.strip "  a b  " = "a b".
Proof. reflexivity. Qed.

Example replace_ex : PyStr.replace " " "_" "Quantum  computing x" = "Quantum__computing_x".
Proof. reflexivity. Qed.

Example replace_ex2 : PyStr.replace "aa" "b" "aaaxaa" = "baxb".
Proof. reflexivity. Qed.

Example join_ex : PyStr.join ", " ["a"; "b"; "c"] = "a, b, c".
Proof. reflexivity. Qed.

(** ** Strings *)

Section StringFacts.

Lemma rstrip_all_space (s : string) :
  PyStr.all_space s = true -> PyStr.rstrip s = EmptyString.
Proof.
  induction s as [|c s IH]; simpl; [reflexivity|].
  intros H. apply andb_true_iff in H as [Hc Hs].
  rewrite (IH Hs), Hc. reflexivity.
Qed.

Lemma strip_all_space (s : string) :
  PyStr.all_space s = true -> PyStr.strip s = EmptyString.
Proof.
  intros H. unfold PyStr.strip. rewrite (rstrip_all_space s H). reflexivity.
Qed.

Lemma take_drop (n : nat) (s : string) :
  s = PyStr.take n s +:+ PyStr.drop n s.
Proof.
  revert s. induction n as [|n IH]; intros [|c s]; try reflexivity.
  change (String c s = String c (PyStr.take n s +:+ PyStr.drop n s)).
  f_equal. apply IH.
Qed.

Lemma length_take (n : nat) (s : string) :
  (n <= String.length s)%nat -> String.length (PyStr.take n s) = n.
Proof.
  revert s. induction n as [|n IH]; intros [|c s]; simpl; intros H;
    try reflexivity; try lia.
  f_equal. apply IH. lia.
Qed.

(** [s.replace(' ', '_')] substitutes character by character. *)
Lemma replace_space_underscore (s : string) :
  PyStr.replace " " "_" s = PyStr.map_chars space_to_underscore s.
Proof.
  unfold PyStr.replace.
  induction s as [|c s IH]; [reflexivity|].
  change (PyStr.replace_scan " " "_" 0 (String c s))
    with (if Ascii.eqb " "%char c && true
          then "_" +:+ PyStr.replace_scan " " "_" 0 s
          else String c (PyStr.replace_scan " " "_" 0 s)).
  change (PyStr.map_chars space_to_underscore (String c s))
    with (String (space_to_underscore c) (PyStr.map_chars space_to_underscore s)).
  rewrite IH, andb_true_r, Ascii.eqb_sym. unfold space_to_underscore.
  destruct (Ascii.eqb c " "%char); reflexivity.
Qed.

Lemma append_cons (x : ascii) (a b : string) :
  String x a +:+ b = String x (a +:+ b).
Proof. reflexivity. Qed.

Lemma append_assoc (a b c : string) : (a +:+ b) +:+ c = a +:+ (b +:+ c).
Proof.
  induction a as [|x a IH]; [reflexivity|].
  rewrite !append_cons. now rewrite IH.
Qed.

Lemma append_empty_r (a : string) : a +:+ EmptyString = a.
Proof.
  induction a as [|x a IH]; [reflexivity|].
  rewrite append_cons. now rewrite IH.
Qed.

(** Every part of a join stands in it. *)
Lemma join_contains (sep : string) (parts : list string) (p : string) :
  In p parts ->
  exists before after, PyStr.join sep parts = before +:+ p +:+ after.
Proof.
  induction parts as [|q parts IH]; intros Hin; [destruct Hin|].
  destruct Hin as [-> | Hin].
  - destruct parts as [|r parts].
    + exists EmptyString, EmptyString.
      change (p = p +:+ EmptyString). now rewrite append_empty_r.
    + exists EmptyString, (sep +:+ PyStr.join sep (r :: parts)). reflexivity.
  - destruct (IH Hin) as (b & a & E).
    destruct parts as [|r parts]; [destruct Hin|].
    exists (q +:+ sep +:+ b), a.
    change (PyStr.join sep (q :: r :: parts))
      with (q +:+ sep +:+ PyStr.join sep (r :: parts)).
    rewrite E. now rewrite !append_assoc.
Qed.

End StringFacts.

(** ** Prompt building and context formatting *)

(** C9: the prompt is a function of the query and the context alone.
    With no context, or an empty one, it is the query unchanged.  With a
    non-empty context it is one fixed template: the instruction to answer
    from the Wikipedia information and to mention the Wikipedia sources,
    the context under the label "Wikipedia Context:", the query under the
    label "User Question: ", and the request to acknowledge the
    Wikipedia information. *)
Theorem C9_prepare_message_template (query : string) (ctx : option string) :
  ((ctx = None \/ ctx = Some EmptyString) -> _prepare_message query ctx = query)
  /\
  (forall c, ctx = Some c -> c <> EmptyString ->
     _prepare_message query ctx =
       "Based on the following Wikipedia information, please answer the user's question comprehensively and mention that you're using Wikipedia sources:"
       +:+ PyStr.newline +:+ PyStr.newline
       +:+ "Wikipedia Context:" +:+ PyStr.newline
       +:+ c
       +:+ PyStr.newline +:+ PyStr.newline
       +:+ "User Question: " +:+ query
       +:+ PyStr.newline +:+ PyStr.newline
       +:+ "Please provide a detailed answer using the Wikipedia information provided above. Start your response by acknowledging that you found relevant information from Wikipedia.").
Proof.
  split.
  - intros [-> | ->]; reflexivity.
  - intros c -> Hc. unfold _prepare_message.
    destruct c as [|a c]; [congruence|].
    cbn [PyStr.truthy]. unfold prompt_head, prompt_question, prompt_tail.
    now rewrite !append_assoc.
Qed.

(** C2: an article with more than 800 characters of content is rendered
    in the context as its header line, the first 800 characters of the
    content and "..."; an article with at most 800 characters is rendered
    as its header line and the whole content, nothing appended.  The
    rendering stands in the composed context. *)
Theorem C2_truncation_at_800 (results : list pydict) (result : pydict) (content : string) :
  In result results ->
  result !! "content" = Some content ->
  (exists before after,
      format_wikipedia_context results = before +:+ format_result result +:+ after)
  /\
  ((800 < String.length content)%nat ->
     format_result result =
       "Wikipedia Article: " +:+ dict_get result "title" "Unknown" +:+ PyStr.newline
       +:+ PyStr.take 800 content +:+ "..."
     /\ String.length (PyStr.take 800 content) = 800%nat
     /\ exists rest, content = PyStr.take 800 content +:+ rest)
  /\
  ((String.length content <= 800)%nat ->
     format_result result =
       "Wikipedia Article: " +:+ dict_get result "title" "Unknown" +:+ PyStr.newline
       +:+ content).
Proof.
  intros Hin Hc. split; [|split].
  - destruct results as [|r rs]; [destruct Hin|].
    unfold format_wikipedia_context.
    apply join_contains. now apply in_map.
  - intros Hlen. unfold format_result, dict_get. rewrite Hc.
    change (default EmptyString (Some content)) with content.
    destruct (Nat.ltb_spec 800 (String.length content)) as [_|Hle]; [|lia].
    split; [reflexivity|]. split.
    + apply length_take. lia.
    + exists (PyStr.drop 800 content). apply take_drop.
  - intros Hlen. unfold format_result, dict_get. rewrite Hc.
    change (default EmptyString (Some content)) with content.
    destruct (Nat.ltb_spec 800 (String.length content)) as [Hlt|_]; [lia|].
    reflexivity.
Qed.

Lemma C2_truncation_at_800_witness :
  (exists before after,
      format_wikipedia_context [long_article]
      = before +:+ format_result long_article +:+ after)
  /\
  ((800 < String.length (repeat_char "q"%char 801))%nat ->
     format_result long_article =
       "Wikipedia Article: " +:+ dict_get long_article "title" "Unknown" +:+ PyStr.newline
       +:+ PyStr.take 800 (repeat_char "q"%char 801) +:+ "..."
     /\ String.length (PyStr.take 800 (repeat_char "q"%char 801)) = 800%nat
     /\ exists rest, repeat_char "q"%char 801
                     = PyStr.take 800 (repeat_char "q"%char 801) +:+ rest)
  /\
  ((String.length (repeat_char "q"%char 801) <= 800)%nat ->
     format_result long_article =
       "Wikipedia Article: " +:+ dict_get long_article "title" "Unknown" +:+ PyStr.newline
       +:+ repeat_char "q"%char 801).
Proof.
  apply (C2_truncation_at_800 [long_article] long_article (repeat_char "q"%char 801)).
  - left. reflexivity.
  - vm_compute. reflexivity.
Defined.

(** ** Resolution of one search hit *)

Section Resolution.

Variable w : world.

Lemma summary_article_non_empty (title : string) (data : SummaryData) :
  summary_article title data <> ∅.
Proof. unfold summary_article. apply insert_non_empty. Qed.

(** A hit with a title always resolves to one article, after exactly
    one summary request. *)
Lemma extract_item_resolved (item : pydict) (title : string)
    (results : list pydict) (t : trace) :
  item !! "title" = Some title ->
  extract_item w item results t =
    (Ok (results ++ [resolved_article title
                       (_clean_snippet (dict_get item "snippet" EmptyString))
                       (summary_get w t (summary_url title))])%list,
     (t ++ [EvSummaryGet (summary_url title)])%list).
Proof.
  intros Ht. unfold extract_item, getitem. rewrite Ht.
  unfold _get_article_summary, response_json, resolved_article, summary_url.
  run_monad.
  destruct (summary_get w t _) as [resp|e]; [|reflexivity].
  destruct (status_code resp =? 200); cbn [negb]; [|reflexivity].
  destruct (json resp) as [data|]; [|reflexivity].
  fold (summary_article title data).
  rewrite bool_decide_eq_false_2 by apply summary_article_non_empty.
  reflexivity.
Qed.

(** A hit without a title raises [KeyError], before any request. *)
Lemma extract_item_no_title (item : pydict) (results : list pydict) (t : trace) :
  item !! "title" = None ->
  extract_item w item results t = (Raise (mkExn KeyError "title"), t).
Proof.
  intros Ht. unfold extract_item, getitem. rewrite Ht. reflexivity.
Qed.

End Resolution.

(** ** Search: the calls it makes, and that it always returns *)

Section SearchFacts.

Variable w : world.

Lemma extract_loop_events (items results : list pydict) (t : trace) :
  exists r es,
    extract_loop w items results t = (r, (t ++ es)%list)
    /\ only_search_events es.
Proof.
  revert results t. induction items as [|item items IH]; intros results t.
  - exists (Ok results), []. rewrite app_nil_r. split; reflexivity.
  - cbn [extract_loop]. unfold bind.
    destruct (item !! "title") as [title|] eqn:Ht.
    + rewrite (extract_item_resolved w item title results t Ht).
      destruct (IH (results ++ [resolved_article title
                       (_clean_snippet (dict_get item "snippet" EmptyString))
                       (summary_get w t (summary_url title))])%list
                   (t ++ [EvSummaryGet (summary_url title)])%list)
        as (r & es & E & Hes).
      exists r, (EvSummaryGet (summary_url title) :: es).
      rewrite E, <- app_assoc. split; [reflexivity | exact Hes].
    + rewrite (extract_item_no_title w item results t Ht).
      exists (Raise (mkExn KeyError "title")), [].
      rewrite app_nil_r. split; reflexivity.
Qed.

(** When every hit has a title the loop returns one article per hit. *)
Lemma extract_loop_ok (items results : list pydict) (t : trace) :
  Forall (fun item => is_Some (item !! "title")) items ->
  exists articles,
    fst (extract_loop w items results t) = Ok (results ++ articles)%list
    /\ length articles = length items.
Proof.
  revert results t. induction items as [|item items IH]; intros results t Hall.
  - exists []. rewrite app_nil_r. split; reflexivity.
  - inversion Hall as [|? ? [title Ht] Hrest]; subst.
    cbn [extract_loop]. unfold bind.
    rewrite (extract_item_resolved w item title results t Ht).
    destruct (IH (results ++ [resolved_article title
                     (_clean_snippet (dict_get item "snippet" EmptyString))
                     (summary_get w t (summary_url title))])%list
                 (t ++ [EvSummaryGet (summary_url title)])%list Hrest)
      as (articles & E & Hlen).
    exists (resolved_article title
              (_clean_snippet (dict_get item "snippet" EmptyString))
              (summary_get w t (summary_url title)) :: articles).
    rewrite E, <- app_assoc. split; [reflexivity | simpl; now rewrite Hlen].
Qed.

(** A hit without a title makes the loop raise. *)
Lemma extract_loop_missing_title (items results : list pydict) (t : trace) :
  Exists (fun item => item !! "title" = None) items ->
  exists e, fst (extract_loop w items results t) = Raise e.
Proof.
  revert results t. induction items as [|item items IH]; intros results t Hex.
  - inversion Hex.
  - cbn [extract_loop]. unfold bind.
    destruct (item !! "title") as [title|] eqn:Ht.
    + rewrite (extract_item_resolved w item title results t Ht).
      apply IH. inversion Hex as [? ? H0|? ? H0]; subst; [congruence | exact H0].
    + rewrite (extract_item_no_title w item results t Ht).
      eexists. reflexivity.
Qed.

Lemma perform_search_no_hits (query : string) (limit : Z) (t : trace) :
  search_hits (search_get w t query limit) = None ->
  exists r,
    _perform_search w query limit t = (r, (t ++ [EvSearchGet query limit])%list)
    /\ (r = Ok [] \/ exists e, r = Raise e).
Proof.
  unfold search_hits, _perform_search, raise_for_status, response_json.
  run_monad.
  destruct (search_get w t query limit) as [resp|e]; [|eauto].
  destruct ((400 <=? status_code resp) && (status_code resp <? 600)); [eauto|].
  cbn beta iota.
  destruct (json resp) as [data|]; [|eauto].
  destruct (js_query data) as [qd|]; [|eauto].
  destruct (js_search qd) as [hits|]; [discriminate|eauto].
Qed.

Lemma perform_search_hits (query : string) (limit : Z) (t : trace)
    (hits : list pydict) :
  search_hits (search_get w t query limit) = Some hits ->
  _perform_search w query limit t
  = extract_loop w hits [] (t ++ [EvSearchGet query limit])%list.
Proof.
  unfold search_hits, _perform_search, raise_for_status, response_json.
  run_monad.
  destruct (search_get w t query limit) as [resp|e]; [|discriminate].
  destruct ((400 <=? status_code resp) && (status_code resp <? 600)); [discriminate|].
  cbn beta iota.
  destruct (json resp) as [data|]; [|discriminate].
  destruct (js_query data) as [qd|]; [|discriminate].
  destruct (js_search qd) as [hits'|]; [|discriminate].
  intros [= ->]. reflexivity.
Qed.

(** [search_wikipedia] never raises, and calls only the search and
    summary endpoints. *)
Lemma search_wikipedia_total (query : string) (limit : option Z) (t : trace) :
  exists articles es,
    search_wikipedia w query limit t = (Ok articles, (t ++ es)%list)
    /\ only_search_events es.
Proof.
  unfold search_wikipedia, try_except.
  set (l := default settings.wikipedia_max_results limit).
  destruct (search_hits (search_get w t query l)) as [hits|] eqn:Hh.
  - rewrite (perform_search_hits query l t hits Hh).
    destruct (extract_loop_events hits [] (t ++ [EvSearchGet query l])%list)
      as (r & es & E & Hes).
    rewrite E, <- app_assoc.
    destruct r as [articles|e].
    + exists articles, (EvSearchGet query l :: es). split; [reflexivity | exact Hes].
    + exists [], (EvSearchGet query l :: es).
      split; [destruct (is_request_exception e); reflexivity | exact Hes].
  - destruct (perform_search_no_hits query l t Hh) as (r & E & [-> | [e ->]]);
      rewrite E.
    + exists [], [EvSearchGet query l]. split; reflexivity.
    + exists [], [EvSearchGet query l].
      split; [destruct (is_request_exception e); reflexivity | reflexivity].
Qed.

End SearchFacts.

(** ** The chat endpoint, step by step *)

Section ChatFacts.

Variable w : world.

Lemma gather_context_disabled (request : QueryRequest) (t : trace) :
  use_wikipedia request = false ->
  gather_context w request t = (Ok ([], None), t).
Proof. intros H. unfold gather_context. rewrite H. reflexivity. Qed.

Lemma gather_context_enabled (request : QueryRequest) (t : trace) :
  use_wikipedia request = true ->
  exists articles es,
    search_wikipedia w (query request) (Some 2) t = (Ok articles, (t ++ es)%list)
    /\ only_search_events es
    /\ gather_context w request t
       = (Ok (collect_sources articles,
              match articles with
              | [] => None
              | _ => Some (format_wikipedia_context articles)
              end), (t ++ es)%list).
Proof.
  intros H. unfold gather_context. rewrite H. unfold bind.
  destruct (search_wikipedia_total w (query request) (Some 2) t)
    as (articles & es & E & Hes).
  exists articles, es. rewrite E. repeat split; try assumption.
  destruct articles; reflexivity.
Qed.

(** The lookup of context never raises and calls only the search and
    summary endpoints. *)
Lemma gather_context_total (request : QueryRequest) (t : trace) :
  exists ctx es,
    gather_context w request t = (Ok ctx, (t ++ es)%list)
    /\ only_search_events es.
Proof.
  destruct (use_wikipedia request) eqn:H.
  - destruct (gather_context_enabled request t H) as (a & es & _ & Hes & E).
    eexists _, es. split; [exact E | exact Hes].
  - exists ([], None), []. rewrite app_nil_r.
    split; [now apply gather_context_disabled | reflexivity].
Qed.

Lemma chat_pipeline_run (request : QueryRequest) (t t1 : trace)
    (ctx : list string * option string) :
  gather_context w request t = (Ok ctx, t1) ->
  chat_pipeline w request t =
    (match generation_outcome w request ctx t1 with
     | Ok {| text := Some response_text |} =>
         Ok {| response := response_text;
               resp_query := query request;
               wikipedia_sources := fst ctx;
               timestamp := utcnow w (t1 ++ [generation_call request ctx])%list |}
     | Ok {| text := None |} =>
         Raise (mkExn TypeError "object of type 'NoneType' has no len()")
     | Raise e => Raise e
     end,
     (t1 ++ [generation_call request ctx])%list).
Proof.
  intros E. unfold chat_pipeline, bind. rewrite E.
  unfold generate_response, generation_outcome, generation_call, now.
  run_monad. cbn [default from_option id].
  destruct (cohere_chat w t1 _ _ _) as [[[s|]]|e]; reflexivity.
Qed.

(** The endpoint once the pipeline has returned [chat_response]: the
    response is returned when saving succeeds, and when saving raises
    and the rollback returns; when the rollback raises too, its
    exception reaches the outer handler. *)
Lemma chat_endpoint_after_pipeline (request : QueryRequest) (t t1 : trace)
    (chat_response : QueryResponse) :
  chat_pipeline w request t = (Ok chat_response, t1) ->
  chat_endpoint w request t =
    match save_conversation w request chat_response t1 with
    | (Ok _, t2) => (Ok chat_response, t2)
    | (Raise _, t2) =>
        (match db_rollback_outcome w t2 with
         | Ok _ => Ok chat_response
         | Raise rollback_error =>
             Raise (mkExn (HTTPException 500)
                      ("Error processing request: " +:+ str_exn rollback_error))
         end,
         (t2 ++ [EvDbRollback])%list)
    end.
Proof.
  intros E. unfold chat_endpoint, db_rollback, try_except, bind, call. rewrite E.
  destruct (save_conversation w request chat_response t1) as [[u|e] t2];
    [reflexivity|].
  destruct (db_rollback_outcome w t2) as [u|e']; reflexivity.
Qed.

(** The endpoint once the pipeline has raised [e]. *)
Lemma chat_endpoint_pipeline_raises (request : QueryRequest) (t t1 : trace)
    (e : exn) :
  chat_pipeline w request t = (Raise e, t1) ->
  chat_endpoint w request t =
    (Raise (mkExn (HTTPException 500) ("Error processing request: " +:+ str_exn e)),
     t1).
Proof.
  intros E. unfold chat_endpoint, try_except, bind. rewrite E. reflexivity.
Qed.

(** Saving calls only the database. *)
Lemma save_conversation_events (request : QueryRequest)
    (chat_response : QueryResponse) (t1 : trace) :
  exists r es,
    save_conversation w request chat_response t1 = (r, (t1 ++ es)%list)
    /\ forallb is_db_event es = true.
Proof.
  unfold save_conversation. run_monad.
  destruct (db_add w t1 _) as [u|e].
  - destruct (db_commit w _) as [u'|e'].
    + eexists _, [_; _; _]. rewrite <- !app_assoc. split; reflexivity.
    + eexists _, [_; _]. rewrite <- !app_assoc. split; reflexivity.
  - eexists _, [_]. split; reflexivity.
Qed.

(** After the pipeline has returned [chat_response] the endpoint calls
    only the database; a response it returns is [chat_response]; and it
    returns it unless saving raises and the rollback raises as well. *)
Lemma chat_endpoint_saved (request : QueryRequest) (t t1 : trace)
    (chat_response : QueryResponse) :
  chat_pipeline w request t = (Ok chat_response, t1) ->
  (exists es,
      snd (chat_endpoint w request t) = (t1 ++ es)%list
      /\ forallb is_db_event es = true)
  /\ (forall returned,
         fst (chat_endpoint w request t) = Ok returned -> returned = chat_response)
  /\ (fst (chat_endpoint w request t) = Ok chat_response
      \/ exists db_error t2 rollback_error,
           save_conversation w request chat_response t1 = (Raise db_error, t2)
           /\ db_rollback_outcome w t2 = Raise rollback_error
           /\ fst (chat_endpoint w request t)
              = Raise (mkExn (HTTPException 500)
                         ("Error processing request: " +:+ str_exn rollback_error))).
Proof.
  intros Hp. rewrite (chat_endpoint_after_pipeline request t t1 chat_response Hp).
  destruct (save_conversation_events request chat_response t1)
    as (r & es & E & Hes).
  rewrite E. destruct r as [u|db_error]; cbn [fst snd].
  - split; [exists es; split; [reflexivity | exact Hes]|].
    split; [intros returned [= <-]; reflexivity | left; reflexivity].
  - split.
    { exists (es ++ [EvDbRollback])%list. rewrite <- app_assoc.
      split; [reflexivity|]. rewrite forallb_app, Hes. reflexivity. }
    destruct (db_rollback_outcome w (t1 ++ es)%list) as [u|rollback_error] eqn:Hr.
    + split; [intros returned [= <-]; reflexivity | left; reflexivity].
    + split; [discriminate|]. right.
      exists db_error, (t1 ++ es)%list, rollback_error.
      split; [reflexivity|]. split; [exact Hr | reflexivity].
Qed.

End ChatFacts.

(** ** C1 *)

(** C1: for a validated request with [use_wikipedia = false], the one
    call to the generation provider carries the validated query as its
    prompt, every other call of the request goes to the database, and a
    returned response has an empty [wikipedia_sources]; when the
    provider answers with a text the response is returned, unless saving
    raises and the rollback raises as well. *)
Theorem C1_no_context_prompt_is_query (w : world) (raw : RawQueryRequest)
    (request : QueryRequest) (t : trace) :
  QueryRequest_validate raw = Some request ->
  use_wikipedia request = false ->
  (exists q, raw_query raw = Some q /\ query request = PyStr.strip q)
  /\
  (exists es,
      snd (chat_endpoint w request t)
      = (t ++ EvCohereChat (query request) (max_tokens request) (temperature request)
           :: es)%list
      /\ forallb is_db_event es = true)
  /\
  (forall chat_response,
      fst (chat_endpoint w request t) = Ok chat_response ->
      wikipedia_sources chat_response = [])
  /\
  (forall response_text,
      cohere_chat w t (query request) (max_tokens request) (temperature request)
      = Ok (mkChatResponse (Some response_text)) ->
      exists ts,
        fst (chat_endpoint w request t)
        = Ok {| response := response_text; resp_query := query request;
                wikipedia_sources := []; timestamp := ts |}
        \/ exists db_error t2 rollback_error,
             save_conversation w request
               {| response := response_text; resp_query := query request;
                  wikipedia_sources := []; timestamp := ts |}
               (t ++ [EvCohereChat (query request) (max_tokens request)
                        (temperature request)])%list
             = (Raise db_error, t2)
             /\ db_rollback_outcome w t2 = Raise rollback_error
             /\ fst (chat_endpoint w request t)
                = Raise (mkExn (HTTPException 500)
                           ("Error processing request: "
                            +:+ str_exn rollback_error))).
Proof.
  intros Hv Hu.
  pose proof (gather_context_disabled w request t Hu) as Hg.
  pose proof (chat_pipeline_run w request t t ([], None) Hg) as Hp.
  unfold generation_outcome, generation_call in Hp. cbn [snd fst _prepare_message] in Hp.
  split; [|split; [|split]].
  - unfold QueryRequest_validate, validate_query_field in Hv.
    destruct (raw_query raw) as [q|]; [|discriminate].
    exists q. split; [reflexivity|].
    destruct ((1 <=? String.length q)%nat && (String.length q <=? 2000)%nat);
      [|discriminate].
    destruct (PyStr.truthy (PyStr.strip q)); [|discriminate].
    destruct (validate_max_tokens_field _); [|discriminate].
    destruct (validate_temperature_field _); [|discriminate].
    cbn in Hv. injection Hv as <-. reflexivity.
  - destruct (cohere_chat w t (query request) (max_tokens request) (temperature request))
      as [[[s|]]|e].
    + destruct (chat_endpoint_saved w request t _ _ Hp) as ((es & E & Hes) & _).
      exists es. rewrite E, <- app_assoc. split; [reflexivity | exact Hes].
    + rewrite (chat_endpoint_pipeline_raises w request t _ _ Hp).
      exists []. split; reflexivity.
    + rewrite (chat_endpoint_pipeline_raises w request t _ _ Hp).
      exists []. split; reflexivity.
  - intros chat_response Hr.
    destruct (cohere_chat w t (query request) (max_tokens request) (temperature request))
      as [[[s|]]|e].
    + destruct (chat_endpoint_saved w request t _ _ Hp) as (_ & Hret & _).
      rewrite (Hret chat_response Hr). reflexivity.
    + rewrite (chat_endpoint_pipeline_raises w request t _ _ Hp) in Hr. discriminate.
    + rewrite (chat_endpoint_pipeline_raises w request t _ _ Hp) in Hr. discriminate.
  - intros response_text Hc. rewrite Hc in Hp.
    destruct (chat_endpoint_saved w request t _ _ Hp) as (_ & _ & Hout).
    eexists. exact Hout.
Qed.

Lemma C1_no_context_prompt_is_query_witness :
  QueryRequest_validate raw_plain_request = Some plain_request
  /\ use_wikipedia plain_request = false
  /\ snd (chat_endpoint answering_world plain_request [])
     = [EvCohereChat "What is quantum computing?" 300 (7 # 10);
        EvDbAdd {| ch_query := "What is quantum computing?";
                   ch_response := "Quantum computing is...";
                   ch_wikipedia_sources := [];
                   ch_timestamp := 1758061800;
                   ch_max_tokens := 300;
                   ch_temperature := 7 # 10;
                   ch_use_wikipedia := false |};
        EvDbCommit; EvDbRefresh]
  /\ forall chat_response,
       fst (chat_endpoint answering_world plain_request []) = Ok chat_response ->
       wikipedia_sources chat_response = [].
Proof.
  split; [vm_compute; reflexivity|].
  split; [reflexivity|].
  split; [vm_compute; reflexivity|].
  apply (C1_no_context_prompt_is_query answering_world raw_plain_request
           plain_request []).
  - vm_compute. reflexivity.
  - reflexivity.
Defined.

(** ** C3 *)




(** ** C4 *)

(** C4, as stated, fails: the summary payload has no page URL, the
    resolved article's URL is the empty string, and the response lists
    no source for the one resolved article. *)
Lemma C4_counterexample :
  exists article chat_response,
    fst (search_wikipedia no_url_world (query context_request) (Some 2) [])
    = Ok [article]
    /\ article !! "url" = Some EmptyString
    /\ fst (chat_endpoint no_url_world context_request []) = Ok chat_response
    /\ wikipedia_sources chat_response = [].
Proof.
  eexists. eexists.
  split; [vm_compute; reflexivity|].
  split; [vm_compute; reflexivity|].
  split; vm_compute; reflexivity.
Qed.

Lemma collect_sources_filter (articles : list pydict) :
  collect_sources articles
  = List.filter PyStr.truthy
      (map (fun article => dict_get article "url" EmptyString) articles).
Proof.
  unfold collect_sources.
  induction articles as [|a articles IH]; [reflexivity|].
  cbn [List.filter map].
  destruct (PyStr.truthy (dict_get a "url" EmptyString)); cbn [map];
    now rewrite IH.
Qed.

Lemma filter_all {A} (p : A -> bool) (l : list A) :
  Forall (fun x => p x = true) l -> List.filter p l = l.
Proof.
  induction 1 as [|x l Hx _ IH]; [reflexivity|].
  cbn [List.filter]. now rewrite Hx, IH.
Qed.

(** C4, amended: a fallback article's URL is the wiki base URL followed
    by the title, and is never empty; a summary article's URL is the
    payload's [content_urls.desktop.page], or the empty string when that
    is absent; the response's [wikipedia_sources] are the non-empty URLs
    of the resolved articles, in order, so one per article when every
    article has a non-empty URL. *)
Theorem C4_source_urls (w : world) :
  (forall title snippet,
      _create_fallback_result title snippet !! "url" = Some (fallback_url title)
      /\ fallback_url title <> EmptyString)
  /\
  (forall item title results t resp data,
      item !! "title" = Some title ->
      summary_get w t (summary_url title) = Ok resp ->
      status_code resp = 200 ->
      json resp = Some data ->
      exists article,
        fst (extract_item w item results t) = Ok (results ++ [article])%list
        /\ article !! "url"
           = Some (default EmptyString
                     (js_page (default (mkDesktopUrls None)
                        (js_desktop (default (mkContentUrls None)
                           (js_content_urls data)))))))
  /\
  (forall request t chat_response,
      use_wikipedia request = true ->
      fst (chat_endpoint w request t) = Ok chat_response ->
      exists articles,
        fst (search_wikipedia w (query request) (Some 2) t) = Ok articles
        /\ wikipedia_sources chat_response
           = List.filter PyStr.truthy
               (map (fun article => dict_get article "url" EmptyString) articles)
        /\ (length (wikipedia_sources chat_response) <= length articles)%nat
        /\ (Forall (fun article => dict_get article "url" EmptyString <> EmptyString)
                   articles ->
            length (wikipedia_sources chat_response) = length articles)).
Proof.
  split; [|split].
  - intros title snippet. split.
    + unfold _create_fallback_result, fallback_url.
      rewrite replace_space_underscore.
      rewrite !lookup_insert_ne by discriminate. apply lookup_insert_eq.
    + discriminate.
  - intros item title results t resp data Ht Hs Hc Hj.
    rewrite (extract_item_resolved w item title results t Ht), Hs.
    unfold resolved_article. rewrite Hc, Hj. cbn [Z.eqb Pos.eqb fst].
    eexists. split; [reflexivity|].
    unfold summary_article.
    rewrite !lookup_insert_ne by discriminate. apply lookup_insert_eq.
  - intros request t chat_response Hu Hr.
    destruct (gather_context_enabled w request t Hu) as (articles & es & E & _ & Eg).
    exists articles. rewrite E. split; [reflexivity|].
    pose proof (chat_pipeline_run w request t _ _ Eg) as Hp.
    assert (wikipedia_sources chat_response = collect_sources articles) as Hsrc.
    { destruct (generation_outcome w request _ _) as [[[s|]]|e].
      - destruct (chat_endpoint_saved w request t _ _ Hp) as (_ & Hret & _).
        rewrite (Hret chat_response Hr). reflexivity.
      - rewrite (chat_endpoint_pipeline_raises w request t _ _ Hp) in Hr.
        discriminate.
      - rewrite (chat_endpoint_pipeline_raises w request t _ _ Hp) in Hr.
        discriminate. }
    rewrite Hsrc, collect_sources_filter.
    split; [reflexivity|]. split.
    + etransitivity; [apply List.filter_length_le|]. now rewrite length_map.
    + intros Hall. rewrite filter_all; [now rewrite length_map|].
      apply Forall_map. eapply Forall_impl; [exact Hall|].
      intros a Ha. cbn beta in *.
      destruct (dict_get a "url" EmptyString); [congruence | reflexivity].
Qed.

(** ** C5 *)

Lemma validate_none_max_tokens (raw : RawQueryRequest) :
  validate_max_tokens_field (raw_max_tokens raw) = None ->
  QueryRequest_validate raw = None.
Proof.
  intros H. unfold QueryRequest_validate. rewrite H.
  destruct (validate_query_field _); reflexivity.
Qed.

Lemma validate_none_temperature (raw : RawQueryRequest) :
  validate_temperature_field (raw_temperature raw) = None ->
  QueryRequest_validate raw = None.
Proof.
  intros H. unfold QueryRequest_validate. rewrite H.
  destruct (validate_query_field _); [|reflexivity].
  destruct (validate_max_tokens_field _); reflexivity.
Qed.

Lemma validate_none_query (raw : RawQueryRequest) :
  validate_query_field (raw_query raw) = None ->
  QueryRequest_validate raw = None.
Proof. intros H. unfold QueryRequest_validate. rewrite H. reflexivity. Qed.

Lemma invalid_request_rejected (raw : RawQueryRequest) :
  invalid_request raw -> QueryRequest_validate raw = None.
Proof.
  intros [(m & Hm & Hr) | [(x & Hx & Hr) | (q & Hq & Hr)]].
  - apply validate_none_max_tokens. rewrite Hm. cbn [validate_max_tokens_field].
    destruct (Z.leb_spec 1 m), (Z.leb_spec m 2000); try reflexivity; lia.
  - apply validate_none_temperature. rewrite Hx. cbn [validate_temperature_field].
    destruct (Qle_bool 0 x) eqn:H0; [|reflexivity].
    destruct (Qle_bool x 1) eqn:H1; [|reflexivity].
    apply Qle_bool_iff in H0, H1.
    destruct Hr as [Hr | Hr]; [apply Qlt_not_le in Hr | apply Qlt_not_le in Hr];
      contradiction.
  - apply validate_none_query. rewrite Hq. cbn [validate_query_field].
    destruct Hr as [-> | [Hs | Hl]].
    + reflexivity.
    + rewrite (strip_all_space q Hs). cbn [PyStr.truthy].
      destruct ((1 <=? String.length q)%nat && (String.length q <=? 2000)%nat);
        reflexivity.
    + destruct (Nat.leb_spec (String.length q) 2000); [lia|].
      rewrite andb_false_r. reflexivity.
Qed.

(** C5: a body with [max_tokens] outside 1..2000, [temperature] outside
    0..1, or a query that is empty, all white space or longer than 2000
    characters fails validation; [POST /chat] answers 422 and the trace
    of calls is unchanged: no search, summary, generation or database
    call is made. *)
Theorem C5_invalid_request_rejected_before_calls (w : world)
    (raw : RawQueryRequest) (t : trace) :
  invalid_request raw ->
  QueryRequest_validate raw = None
  /\ post_chat w raw t = (HttpError 422 "Unprocessable Entity", t).
Proof.
  intros H. pose proof (invalid_request_rejected raw H) as Hv.
  split; [exact Hv|]. unfold post_chat. rewrite Hv. reflexivity.
Qed.

Lemma C5_invalid_request_rejected_before_calls_witness :
  invalid_request raw_bad_tokens
  /\ post_chat answering_world raw_bad_tokens []
     = (HttpError 422 "Unprocessable Entity", []).
Proof.
  assert (invalid_request raw_bad_tokens) as H.
  { left. exists 2001. split; [reflexivity | right; lia]. }
  split; [exact H|].
  exact (proj2 (C5_invalid_request_rejected_before_calls
                  answering_world raw_bad_tokens [] H)).
Defined.

(** ** C6 *)

(** C6, evaluated on the code: when generation has returned a text and
    saving the conversation raises, the endpoint calls the rollback.
    When the rollback returns, the endpoint returns the response object
    that was already built (the generated text, the query, the source
    URLs and the time stamp) and the transport layer answers 200 with
    it.  When the rollback raises as well, its exception leaves the
    inner handler, the outer handler turns it into an HTTP 500, and the
    response that was built is not returned. *)
Theorem C6_persistence_failure_outcomes (w : world) (request : QueryRequest)
    (t t1 t2 : trace) (ctx : list string * option string)
    (response_text : string) (db_error : exn) :
  gather_context w request t = (Ok ctx, t1) ->
  generation_outcome w request ctx t1 = Ok (mkChatResponse (Some response_text)) ->
  save_conversation w request (computed_response w request ctx t1 response_text)
    (t1 ++ [generation_call request ctx])%list = (Raise db_error, t2) ->
  (forall u,
      db_rollback_outcome w t2 = Ok u ->
      chat_endpoint w request t
      = (Ok (computed_response w request ctx t1 response_text),
         (t2 ++ [EvDbRollback])%list)
      /\ serve (chat_endpoint w request) t
         = (Http200 (computed_response w request ctx t1 response_text),
            (t2 ++ [EvDbRollback])%list))
  /\
  (forall rollback_error,
      db_rollback_outcome w t2 = Raise rollback_error ->
      chat_endpoint w request t
      = (Raise (mkExn (HTTPException 500)
                  ("Error processing request: " +:+ str_exn rollback_error)),
         (t2 ++ [EvDbRollback])%list)
      /\ serve (chat_endpoint w request) t
         = (HttpError 500
              ("Error processing request: " +:+ str_exn rollback_error),
            (t2 ++ [EvDbRollback])%list)).
Proof.
  intros Hg Hc Hs.
  pose proof (chat_pipeline_run w request t t1 ctx Hg) as Hp.
  rewrite Hc in Hp. fold (computed_response w request ctx t1 response_text) in Hp.
  pose proof (chat_endpoint_after_pipeline w request t _ _ Hp) as He.
  rewrite Hs in He.
  split.
  - intros u Hr. rewrite Hr in He.
    split; [exact He|]. unfold serve. rewrite He. reflexivity.
  - intros rollback_error Hr. rewrite Hr in He.
    split; [exact He|]. unfold serve. rewrite He. reflexivity.
Qed.

Lemma C6_persistence_failure_outcomes_witness :
  serve (chat_endpoint db_lost_world context_request) []
  = (HttpError 500 "Error processing request: server closed the connection",
     [EvSearchGet "What is quantum computing?" 2;
      EvCohereChat "What is quantum computing?" 300 (7 # 10);
      EvDbAdd {| ch_query := "What is quantum computing?";
                 ch_response := "Quantum computing is...";
                 ch_wikipedia_sources := [];
                 ch_timestamp := 1758061800;
                 ch_max_tokens := 300;
                 ch_temperature := 7 # 10;
                 ch_use_wikipedia := true |};
      EvDbCommit; EvDbRollback]).
Proof.
  refine (proj2 (proj2 (C6_persistence_failure_outcomes db_lost_world
                   context_request []
                   [EvSearchGet "What is quantum computing?" 2]
                   [EvSearchGet "What is quantum computing?" 2;
                    EvCohereChat "What is quantum computing?" 300 (7 # 10);
                    EvDbAdd _; EvDbCommit]
                   ([], None) "Quantum computing is..." db_down _ _ _)
                  (mkExn DatabaseError "server closed the connection") _));
    vm_compute; reflexivity.
Defined.

(** ** C7 *)

(** C7, as stated, fails: the status is outside 200..299, yet
    [raise_for_status] lets it pass and the hits of the body are
    resolved and returned. *)
Lemma C7_counterexample :
  search_failed_spec
    (search_get multiple_choices_world [] "What is quantum computing?" 2)
  /\ fst (search_wikipedia multiple_choices_world
            "What is quantum computing?" (Some 2) [])
     = Ok [_create_fallback_result "Quantum computing" "a quantum b"]
  /\ fst (search_wikipedia multiple_choices_world
            "What is quantum computing?" (Some 2) [])
     <> Ok [].
Proof.
  split; [left; cbn; lia|].
  split; [vm_compute; reflexivity | vm_compute; discriminate].
Qed.

Lemma search_failed_no_hits (outcome : result (Response SearchData)) :
  search_failed outcome -> search_hits outcome = None.
Proof.
  unfold search_failed, search_hits.
  destruct outcome as [resp|e]; [|reflexivity].
  intros [Hs | Hj].
  - destruct (Z.leb_spec 400 (status_code resp)),
             (Z.ltb_spec (status_code resp) 600); try reflexivity; lia.
  - destruct ((400 <=? status_code resp) && (status_code resp <? 600));
      [reflexivity|].
    destruct (json resp) as [data|]; [|reflexivity].
    destruct (js_query data) as [qd|]; [exact Hj | reflexivity].
Qed.

(** C7, amended: [search_wikipedia] never raises.  When the search
    request raises (a timeout or another transport error), answers with
    a status from 400 to 599, has a body that does not decode, or has a
    payload without [query] or [query.search], the result is the empty
    list after that one request.  When a hit of the payload has no
    [title], the result is the empty list as well. *)
Theorem C7_search_degrades_to_empty (w : world) (query : string) (limit : Z)
    (t : trace) :
  (exists articles,
      fst (search_wikipedia w query (Some limit) t) = Ok articles)
  /\
  (search_failed (search_get w t query limit) ->
   search_wikipedia w query (Some limit) t
   = (Ok [], (t ++ [EvSearchGet query limit])%list))
  /\
  (forall hits,
      search_hits (search_get w t query limit) = Some hits ->
      Exists (fun item => item !! "title" = None) hits ->
      fst (search_wikipedia w query (Some limit) t) = Ok []).
Proof.
  split; [|split].
  - destruct (search_wikipedia_total w query (Some limit) t) as (a & es & E & _).
    exists a. now rewrite E.
  - intros Hf. apply search_failed_no_hits in Hf.
    destruct (perform_search_no_hits w query limit t Hf) as (r & E & Hr).
    unfold search_wikipedia, try_except. cbn [default from_option id].
    rewrite E. destruct Hr as [-> | [e ->]]; [reflexivity|].
    destruct (is_request_exception e); reflexivity.
  - intros hits Hh Hex.
    unfold search_wikipedia, try_except. cbn [default from_option id].
    rewrite (perform_search_hits w query limit t hits Hh).
    destruct (extract_loop_missing_title w hits []
                (t ++ [EvSearchGet query limit])%list Hex) as (e & E).
    destruct (extract_loop w hits [] (t ++ [EvSearchGet query limit])%list)
      as [r t'].
    cbn [fst] in E. subst r.
    destruct (is_request_exception e); reflexivity.
Qed.

Lemma C7_search_degrades_to_empty_witness :
  search_failed (search_get search_down_world [] "What is quantum computing?" 2)
  /\ search_wikipedia search_down_world "What is quantum computing?" (Some 2) []
     = (Ok [], [EvSearchGet "What is quantum computing?" 2]).
Proof.
  assert (search_failed
            (search_get search_down_world [] "What is quantum computing?" 2)) as H.
  { left. cbn. lia. }
  split; [exact H|].
  exact (proj1 (proj2 (C7_search_degrades_to_empty search_down_world
                         "What is quantum computing?" 2 [])) H).
Defined.

(** ** C8 *)

(** C8, as stated, fails: the provider answers with an empty text and
    the request succeeds with an empty [response]. *)
Lemma C8_counterexample :
  generation_failed_spec
    (cohere_chat empty_text_world [] (query plain_request)
       (max_tokens plain_request) (temperature plain_request))
  /\ fst (serve (chat_endpoint empty_text_world plain_request) [])
     = Http200 {| response := EmptyString;
                  resp_query := "What is quantum computing?";
                  wikipedia_sources := [];
                  timestamp := 1758061800 |}.
Proof.
  split; [right; reflexivity | vm_compute; reflexivity].
Qed.

(** C8, amended: when the generation client raises (authentication,
    network) or its response carries no text, the request fails: the
    endpoint raises an HTTP 500 whose detail is "Error processing
    request: " followed by the error's message, no response object is
    returned, the trace is the context lookup's search and summary calls
    followed by the one generation call, and nothing is saved.  A
    response with an empty text is not a failure of generation: the
    response object is built with the empty text as its [response], and
    the endpoint returns it like any other, that is, unless saving
    raises and the rollback raises as well. *)
Theorem C8_generation_failure_is_fatal (w : world) (request : QueryRequest)
    (t t1 : trace) (ctx : list string * option string) :
  gather_context w request t = (Ok ctx, t1) ->
  (generation_failed (generation_outcome w request ctx t1) ->
   exists e es,
     chat_endpoint w request t
     = (Raise (mkExn (HTTPException 500)
                 ("Error processing request: " +:+ str_exn e)),
        (t1 ++ [generation_call request ctx])%list)
     /\ serve (chat_endpoint w request) t
        = (HttpError 500 ("Error processing request: " +:+ str_exn e),
           (t1 ++ [generation_call request ctx])%list)
     /\ t1 = (t ++ es)%list
     /\ only_search_events es)
  /\
  (generation_outcome w request ctx t1 = Ok (mkChatResponse (Some EmptyString)) ->
   chat_pipeline w request t
   = (Ok (computed_response w request ctx t1 EmptyString),
      (t1 ++ [generation_call request ctx])%list)
   /\ (fst (chat_endpoint w request t)
       = Ok (computed_response w request ctx t1 EmptyString)
       \/ exists db_error t2 rollback_error,
            save_conversation w request
              (computed_response w request ctx t1 EmptyString)
              (t1 ++ [generation_call request ctx])%list
            = (Raise db_error, t2)
            /\ db_rollback_outcome w t2 = Raise rollback_error
            /\ fst (chat_endpoint w request t)
               = Raise (mkExn (HTTPException 500)
                          ("Error processing request: "
                           +:+ str_exn rollback_error)))).
Proof.
  intros Hg.
  pose proof (chat_pipeline_run w request t t1 ctx Hg) as Hp.
  split.
  - intros Hf.
    destruct (gather_context_total w request t) as (ctx' & es & Eg & Hes).
    rewrite Hg in Eg. injection Eg as _ Ht1.
    assert (exists e, chat_pipeline w request t
                      = (Raise e, (t1 ++ [generation_call request ctx])%list))
      as [e He].
    { destruct (generation_outcome w request ctx t1) as [[[s|]]|e].
      - discriminate Hf.
      - eexists. exact Hp.
      - eexists. exact Hp. }
    pose proof (chat_endpoint_pipeline_raises w request t _ _ He) as Hr.
    exists e, es. split; [exact Hr|]. split.
    + unfold serve. rewrite Hr. reflexivity.
    + split; assumption.
  - intros Hc. rewrite Hc in Hp.
    fold (computed_response w request ctx t1 EmptyString) in Hp.
    split; [exact Hp|].
    exact (proj2 (proj2 (chat_endpoint_saved w request t _ _ Hp))).
Qed.

Lemma C8_generation_failure_is_fatal_witness :
  gather_context provider_down_world context_request []
  = (Ok ([], None), [EvSearchGet "What is quantum computing?" 2])
  /\ generation_failed
       (generation_outcome provider_down_world context_request ([], None)
          [EvSearchGet "What is quantum computing?" 2])
  /\ exists e es,
       chat_endpoint provider_down_world context_request []
       = (Raise (mkExn (HTTPException 500)
                   ("Error processing request: " +:+ str_exn e)),
          ([EvSearchGet "What is quantum computing?" 2]
           ++ [generation_call context_request ([], None)])%list)
       /\ serve (chat_endpoint provider_down_world context_request) []
          = (HttpError 500 ("Error processing request: " +:+ str_exn e),
             ([EvSearchGet "What is quantum computing?" 2]
              ++ [generation_call context_request ([], None)])%list)
       /\ [EvSearchGet "What is quantum computing?" 2] = ([] ++ es)%list
       /\ only_search_events es.
Proof.
  assert (gather_context provider_down_world context_request []
          = (Ok ([], None), [EvSearchGet "What is quantum computing?" 2])) as Hg.
  { vm_compute. reflexivity. }
  split; [exact Hg|].
  split; [exact I|].
  exact (proj1 (C8_generation_failure_is_fatal provider_down_world
                  context_request [] _ _ Hg) I).
Defined.

(** ** C10 *)

(** C10, evaluated on the code: when the storage probe returns a count
    the health response is built with [status = "healthy"]; when the
    probe raises, [total_conversations] is the string "unknown", the
    schema's [int] field refuses it, and the endpoint raises instead of
    returning a response: [GET /health] answers a bare 500. *)
Theorem C10_health_check_probe_outcomes (w : world) (t : trace) :
  (forall n,
      db_count w t = Ok n ->
      exists health_response,
        health_check w t = (Ok health_response, (t ++ [EvDbCount])%list)
        /\ status health_response = "healthy"
        /\ database_status health_response = "connected"
        /\ total_conversations health_response = n)
  /\
  (forall e,
      db_count w t = Raise e ->
      health_check w t
      = (Raise (mkExn ValidationError "Input should be a valid integer"),
         (t ++ [EvDbCount])%list)
      /\ get_health w t
         = (HttpError 500 "Internal Server Error", (t ++ [EvDbCount])%list)).
Proof.
  split.
  - intros n Hn. unfold health_check, HealthCheckResponse_new. run_monad.
    rewrite Hn. cbn. eexists. split; [reflexivity|]. repeat split.
  - intros e He.
    assert (health_check w t
            = (Raise (mkExn ValidationError "Input should be a valid integer"),
               (t ++ [EvDbCount])%list)) as H.
    { unfold health_check, HealthCheckResponse_new. run_monad.
      rewrite He. reflexivity. }
    split; [exact H|]. unfold get_health, serve. rewrite H. reflexivity.
Qed.

(** ** End-to-end scenarios *)

(** Two hits resolved by summary: two source URLs, the generated text
    returned, and a row saved with [use_wikipedia] set. *)
Example scenario_two_articles :
  fst (serve (chat_endpoint two_articles_world context_request) [])
  = Http200 {| response := "Quantum computing is...";
               resp_query := "What is quantum computing?";
               wikipedia_sources :=
                 ["https://en.wikipedia.org/wiki/Quantum_computing";
                  "https://en.wikipedia.org/wiki/Quantum_mechanics"];
               timestamp := 1758061800 |}
  /\ In (EvDbAdd {| ch_query := "What is quantum computing?";
                    ch_response := "Quantum computing is...";
                    ch_wikipedia_sources :=
                      ["https://en.wikipedia.org/wiki/Quantum_computing";
                       "https://en.wikipedia.org/wiki/Quantum_mechanics"];
                    ch_timestamp := 1758061800;
                    ch_max_tokens := 300;
                    ch_temperature := 7 # 10;
                    ch_use_wikipedia := true |})
        (snd (serve (chat_endpoint two_articles_world context_request) [])).
Proof.
  split; [vm_compute; reflexivity|].
  vm_compute. do 4 right. left. reflexivity.
Qed.

(** No search hits: no sources, the prompt is the query, and the
    generated text is returned. *)
Example scenario_no_hits :
  serve (chat_endpoint answering_world context_request) []
  = (Http200 {| response := "Quantum computing is...";
                resp_query := "What is quantum computing?";
                wikipedia_sources := [];
                timestamp := 1758061800 |},
     [EvSearchGet "What is quantum computing?" 2;
      EvCohereChat "What is quantum computing?" 300 (7 # 10);
      EvDbAdd {| ch_query := "What is quantum computing?";
                 ch_response := "Quantum computing is...";
                 ch_wikipedia_sources := [];
                 ch_timestamp := 1758061800;
                 ch_max_tokens := 300;
                 ch_temperature := 7 # 10;
                 ch_use_wikipedia := true |};
      EvDbCommit; EvDbRefresh]).
Proof. vm_compute. reflexivity. Qed.

(** Saving fails and the rollback returns: the response is returned. *)
Example scenario_save_fails_rollback_returns :
  serve (chat_endpoint db_failing_world context_request) []
  = (Http200 {| response := "Quantum computing is...";
                resp_query := "What is quantum computing?";
                wikipedia_sources := [];
                timestamp := 1758061800 |},
     [EvSearchGet "What is quantum computing?" 2;
      EvCohereChat "What is quantum computing?" 300 (7 # 10);
      EvDbAdd {| ch_query := "What is quantum computing?";
                 ch_response := "Quantum computing is...";
                 ch_wikipedia_sources := [];
                 ch_timestamp := 1758061800;
                 ch_max_tokens := 300;
                 ch_temperature := 7 # 10;
                 ch_use_wikipedia := true |};
      EvDbCommit; EvDbRollback]).
Proof. vm_compute. reflexivity. Qed.

(** The health endpoint with the storage down. *)
Example scenario_health_storage_down :
  get_health db_failing_world []
  = (HttpError 500 "Internal Server Error", [EvDbCount]).
Proof. vm_compute. reflexivity. Qed.

(** * Further properties *)

(** ** White space stripping *)

Lemma length_lstrip (s : string) :
  (String.length (PyStr.lstrip s) <= String.length s)%nat.
Proof.
  induction s as [|c s IH]; [reflexivity|].
  cbn [PyStr.lstrip]. destruct (PyStr.isspace c); cbn [String.length]; lia.
Qed.

Lemma length_rstrip (s : string) :
  (String.length (PyStr.rstrip s) <= String.length s)%nat.
Proof.
  induction s as [|c s IH]; [reflexivity|].
  cbn [PyStr.rstrip]. destruct (PyStr.rstrip s) as [|a r].
  - destruct (PyStr.isspace c); cbn [String.length]; lia.
  - cbn [String.length] in *. lia.
Qed.

Lemma length_strip (s : string) :
  (String.length (PyStr.strip s) <= String.length s)%nat.
Proof.
  unfold PyStr.strip.
  etransitivity; [apply length_lstrip | apply length_rstrip].
Qed.

(** [lstrip] returns a suffix. *)
Lemma lstrip_suffix (s : string) : exists p, s = p +:+ PyStr.lstrip s.
Proof.
  induction s as [|c s [p IH]]; [exists EmptyString; reflexivity|].
  cbn [PyStr.lstrip]. destruct (PyStr.isspace c).
  - exists (String c p). rewrite append_cons. now rewrite <- IH.
  - exists EmptyString. reflexivity.
Qed.

Lemma lstrip_head (s : string) (c : ascii) (s' : string) :
  PyStr.lstrip s = String c s' -> PyStr.isspace c = false.
Proof.
  induction s as [|a s IH]; [discriminate|].
  cbn [PyStr.lstrip]. destruct (PyStr.isspace a) eqn:Ha; [exact IH|].
  intros [= <- _]. exact Ha.
Qed.

Lemma append_last_inv (u v : string) (a b : ascii) :
  u +:+ String a EmptyString = v +:+ String b EmptyString -> a = b.
Proof.
  revert v. induction u as [|x u IH]; intros [|y v]; rewrite ?append_cons.
  - intros [= ->]. reflexivity.
  - change (EmptyString +:+ String a EmptyString) with (String a EmptyString).
    intros [= _ H]. destruct v; discriminate.
  - change (EmptyString +:+ String b EmptyString) with (String b EmptyString).
    intros [= _ H]. destruct u; discriminate.
  - intros [= _ H]. exact (IH v H).
Qed.

Lemma rstrip_last (s u : string) (c : ascii) :
  PyStr.rstrip s = u +:+ String c EmptyString -> PyStr.isspace c = false.
Proof.
  revert u. induction s as [|a s IH]; intros u.
  - destruct u; discriminate.
  - cbn [PyStr.rstrip]. destruct (PyStr.rstrip s) as [|b r] eqn:Hr.
    + destruct (PyStr.isspace a) eqn:Ha.
      * destruct u; discriminate.
      * destruct u as [|x u].
        -- intros [= ->]. exact Ha.
        -- rewrite append_cons. intros [= _ H]. destruct u; discriminate.
    + destruct u as [|x u].
      * intros [= _ H].
      * rewrite append_cons. intros [= _ H]. exact (IH u H).
Qed.

Lemma strip_last (s u : string) (c : ascii) :
  PyStr.strip s = u +:+ String c EmptyString -> PyStr.isspace c = false.
Proof.
  unfold PyStr.strip. intros H.
  destruct (lstrip_suffix (PyStr.rstrip s)) as [p Hp].
  rewrite H, <- append_assoc in Hp.
  exact (rstrip_last s _ c Hp).
Qed.

Lemma all_space_rstrip (s : string) :
  PyStr.all_space (PyStr.rstrip s) = true -> PyStr.all_space s = true.
Proof.
  induction s as [|a s IH]; [reflexivity|].
  cbn [PyStr.rstrip PyStr.all_space].
  destruct (PyStr.rstrip s) as [|b r].
  - destruct (PyStr.isspace a) eqn:Ha; cbn [PyStr.all_space]; rewrite ?Ha;
      cbn [andb].
    + intros _. exact (IH eq_refl).
    + intros H. discriminate.
  - cbn [PyStr.all_space]. intros H. apply andb_true_iff in H as [-> H].
    exact (IH H).
Qed.

Lemma lstrip_empty (s : string) :
  PyStr.lstrip s = EmptyString -> PyStr.all_space s = true.
Proof.
  induction s as [|a s IH]; [reflexivity|].
  cbn [PyStr.lstrip PyStr.all_space].
  destruct (PyStr.isspace a); [exact IH | discriminate].
Qed.

(** Only a string of white space strips to the empty string. *)
Lemma strip_empty (s : string) :
  PyStr.strip s = EmptyString -> PyStr.all_space s = true.
Proof.
  unfold PyStr.strip. intros H.
  apply all_space_rstrip, lstrip_empty, H.
Qed.

(** ** Validation of the request body *)

Lemma validate_query_field_some (v : option string) (q' : string) :
  validate_query_field v = Some q' ->
  exists q, v = Some q /\ q' = PyStr.strip q
            /\ (1 <= String.length q <= 2000)%nat
            /\ q' <> EmptyString.
Proof.
  unfold validate_query_field. destruct v as [q|]; [|discriminate].
  destruct (Nat.leb_spec 1 (String.length q)) as [Hl1|]; [|discriminate].
  destruct (Nat.leb_spec (String.length q) 2000) as [Hl2|]; [|discriminate].
  cbn [andb].
  destruct (PyStr.strip q) as [|c0 s0] eqn:Hs; [discriminate|].
  cbn [PyStr.truthy]. intros [= <-].
  exists q. rewrite Hs. repeat split; try lia. discriminate.
Qed.

Lemma validate_max_tokens_field_some (v : option Z) (m : Z) :
  validate_max_tokens_field v = Some m ->
  m = default 300 v /\ 1 <= m <= 2000.
Proof.
  unfold validate_max_tokens_field. destruct v as [x|].
  - destruct (Z.leb_spec 1 x); [|discriminate].
    destruct (Z.leb_spec x 2000); [|discriminate].
    intros [= <-]. split; [reflexivity | lia].
  - intros [= <-]. split; [reflexivity | lia].
Qed.

Lemma validate_temperature_field_some (v : option Q) (x : Q) :
  validate_temperature_field v = Some x ->
  x = default (7 # 10) v /\ (0 <= x <= 1)%Q.
Proof.
  unfold validate_temperature_field. destruct v as [y|].
  - destruct (Qle_bool 0 y) eqn:H0; [|discriminate].
    destruct (Qle_bool y 1) eqn:H1; [|discriminate].
    intros [= <-]. apply Qle_bool_iff in H0, H1. repeat split; assumption.
  - intros [= <-]. repeat split; discriminate.
Qed.

(** A body that passes validation, field by field. *)
Lemma validate_some_fields (raw : RawQueryRequest) (request : QueryRequest) :
  QueryRequest_validate raw = Some request ->
  validate_query_field (raw_query raw) = Some (query request)
  /\ validate_max_tokens_field (raw_max_tokens raw) = Some (max_tokens request)
  /\ validate_temperature_field (raw_temperature raw) = Some (temperature request)
  /\ use_wikipedia request = default true (raw_use_wikipedia raw).
Proof.
  unfold QueryRequest_validate, validate_use_wikipedia_field.
  destruct (validate_query_field _); [|discriminate].
  destruct (validate_max_tokens_field _); [|discriminate].
  destruct (validate_temperature_field _); [|discriminate].
  intros [= <-]. repeat split.
Qed.

(** X1: a body that passes validation gives a request whose query is
    the stripped body query, is not empty, has at most 2000 characters
    and neither starts nor ends with white space, whose [max_tokens]
    lies in 1..2000 and whose [temperature] lies in 0..1. *)
Theorem X1_validated_request_invariants (raw : RawQueryRequest)
    (request : QueryRequest) :
  QueryRequest_validate raw = Some request ->
  (exists q, raw_query raw = Some q /\ query request = PyStr.strip q)
  /\ (1 <= String.length (query request) <= 2000)%nat
  /\ (forall c s', query request = String c s' -> PyStr.isspace c = false)
  /\ (forall u c, query request = u +:+ String c EmptyString ->
                  PyStr.isspace c = false)
  /\ 1 <= max_tokens request <= 2000
  /\ (0 <= temperature request <= 1)%Q.
Proof.
  intros H. apply validate_some_fields in H as (Hq & Hm & Ht & _).
  apply validate_query_field_some in Hq as (q & Hraw & Hs & Hlen & Hne).
  apply validate_max_tokens_field_some in Hm as [_ Hm].
  apply validate_temperature_field_some in Ht as [_ Ht].
  split; [exists q; split; assumption|].
  split.
  { pose proof (length_strip q) as L. rewrite <- Hs in L.
    destruct (query request); [congruence|]. cbn [String.length] in *. lia. }
  split.
  { intros c s' E. rewrite Hs in E. exact (lstrip_head _ c s' E). }
  split.
  { intros u c E. rewrite Hs in E. exact (strip_last q u c E). }
  split; assumption.
Qed.

Lemma X1_validated_request_invariants_witness :
  QueryRequest_validate raw_defaults_request = Some context_request
  /\ (1 <= String.length (query context_request) <= 2000)%nat.
Proof.
  assert (QueryRequest_validate raw_defaults_request = Some context_request) as H.
  { vm_compute. reflexivity. }
  split; [exact H|].
  exact (proj1 (proj2 (X1_validated_request_invariants
                         raw_defaults_request context_request H))).
Defined.

(** X2: a body whose query has 1 to 2000 characters, not all of them
    white space, and whose [max_tokens] and [temperature], when given,
    lie in 1..2000 and 0..1, passes validation; the request carries the
    stripped query, and 300, 0.7 and true for the fields left out. *)
Theorem X2_valid_body_accepted (raw : RawQueryRequest) (q : string) :
  raw_query raw = Some q ->
  (1 <= String.length q <= 2000)%nat ->
  PyStr.all_space q = false ->
  (forall m, raw_max_tokens raw = Some m -> 1 <= m <= 2000) ->
  (forall x, raw_temperature raw = Some x -> (0 <= x <= 1)%Q) ->
  QueryRequest_validate raw
  = Some {| query := PyStr.strip q;
            max_tokens := default 300 (raw_max_tokens raw);
            temperature := default (7 # 10) (raw_temperature raw);
            use_wikipedia := default true (raw_use_wikipedia raw) |}.
Proof.
  intros Hq [Hl1 Hl2] Hs Hm Ht.
  unfold QueryRequest_validate, validate_query_field,
    validate_max_tokens_field, validate_temperature_field,
    validate_use_wikipedia_field.
  rewrite Hq.
  destruct (Nat.leb_spec 1 (String.length q)); [|lia].
  destruct (Nat.leb_spec (String.length q) 2000); [|lia].
  cbn [andb].
  destruct (PyStr.strip q) as [|c0 s0] eqn:Hstrip.
  { apply strip_empty in Hstrip. congruence. }
  cbn [PyStr.truthy].
  destruct (raw_max_tokens raw) as [m|].
  - destruct (Hm m eq_refl) as [Hm1 Hm2].
    destruct (Z.leb_spec 1 m); [|lia]. destruct (Z.leb_spec m 2000); [|lia].
    cbn [andb].
    destruct (raw_temperature raw) as [x|]; [|reflexivity].
    destruct (Ht x eq_refl) as [Hx0 Hx1].
    apply Qle_bool_iff in Hx0, Hx1. rewrite Hx0, Hx1. reflexivity.
  - destruct (raw_temperature raw) as [x|]; [|reflexivity].
    destruct (Ht x eq_refl) as [Hx0 Hx1].
    apply Qle_bool_iff in Hx0, Hx1. rewrite Hx0, Hx1. reflexivity.
Qed.

Lemma X2_valid_body_accepted_witness :
  QueryRequest_validate raw_defaults_request
  = Some {| query := PyStr.strip "  What is quantum computing? ";
            max_tokens := 300; temperature := 7 # 10; use_wikipedia := true |}.
Proof.
  apply (X2_valid_body_accepted raw_defaults_request
           "  What is quantum computing? ").
  - reflexivity.
  - vm_compute. lia.
  - reflexivity.
  - intros m H. discriminate H.
  - intros x H. discriminate H.
Defined.

(** ** Snippet cleaning *)

Lemma starts_with_append (old rest : string) :
  PyStr.starts_with old (old +:+ rest) = true.
Proof.
  induction old as [|a old IH]; [reflexivity|].
  rewrite append_cons. cbn [PyStr.starts_with].
  now rewrite Ascii.eqb_refl, IH.
Qed.

Lemma replace_scan_skip (old new p rest : string) :
  PyStr.replace_scan old new (String.length p) (p +:+ rest)
  = PyStr.replace_scan old new 0 rest.
Proof.
  induction p as [|c p IH]; [reflexivity|].
  rewrite append_cons. cbn [String.length PyStr.replace_scan]. exact IH.
Qed.

(** At an occurrence of [old] the scan emits [new] and goes on after
    it. *)
Lemma replace_scan_match (a : ascii) (old' new rest : string) :
  PyStr.replace_scan (String a old') new 0 (String a old' +:+ rest)
  = new +:+ PyStr.replace_scan (String a old') new 0 rest.
Proof.
  pose proof (starts_with_append (String a old') rest) as Hs.
  rewrite append_cons in *.
  cbn [PyStr.replace_scan]. rewrite Hs.
  cbn [String.length Nat.pred]. now rewrite replace_scan_skip.
Qed.

(** Characters other than the first of [old] are copied. *)
Lemma replace_scan_free (a : ascii) (old' new p rest : string) :
  free_of a p = true ->
  PyStr.replace_scan (String a old') new 0 (p +:+ rest)
  = p +:+ PyStr.replace_scan (String a old') new 0 rest.
Proof.
  induction p as [|c p IH]; [reflexivity|].
  cbn [free_of]. intros H. apply andb_true_iff in H as [Hc Hp].
  rewrite !append_cons. cbn [PyStr.replace_scan PyStr.starts_with].
  rewrite Ascii.eqb_sym. apply negb_true_iff in Hc. rewrite Hc.
  cbn [andb]. now rewrite IH.
Qed.

Lemma replace_scan_free_all (a : ascii) (old' new p : string) :
  free_of a p = true ->
  PyStr.replace_scan (String a old') new 0 p = p.
Proof.
  intros H. pose proof (replace_scan_free a old' new p EmptyString H) as E.
  rewrite append_empty_r in E. rewrite E.
  change (PyStr.replace_scan (String a old') new 0 EmptyString) with EmptyString.
  apply append_empty_r.
Qed.

Lemma clean_open_keeps_close (b : string) :
  free_of "<"%char b = true ->
  PyStr.replace_scan searchmatch_open EmptyString 0 ("</span>" +:+ b)
  = "</span>" +:+ b.
Proof.
  intros Hb.
  let v := eval vm_compute in searchmatch_open in change searchmatch_open with v.
  change ("</span>" +:+ b) with (String "<"%char ("/span>" +:+ b)).
  cbn [PyStr.replace_scan PyStr.starts_with Ascii.eqb Bool.eqb andb].
  f_equal.
  rewrite (replace_scan_free "<"%char _ EmptyString "/span>" b eq_refl).
  now rewrite (replace_scan_free_all "<"%char _ EmptyString b Hb).
Qed.

(** X3: [_clean_snippet] unwraps a highlighted match: with [a], [m]
    and [b] free of the character "<", the snippet [a], the opening
    search-match tag, [m], the closing span tag, [b] is cleaned to [a],
    [m], [b]; and a snippet free of "<" is returned as it is. *)
Theorem X3_clean_snippet_unwraps_match (a m b : string) :
  free_of "<"%char a = true ->
  free_of "<"%char m = true ->
  free_of "<"%char b = true ->
  _clean_snippet (a +:+ searchmatch_open +:+ m +:+ "</span>" +:+ b)
  = a +:+ m +:+ b
  /\ _clean_snippet a = a.
Proof.
  intros Ha Hm Hb. unfold _clean_snippet.
  assert (PyStr.replace searchmatch_open EmptyString
            (a +:+ searchmatch_open +:+ m +:+ "</span>" +:+ b)
          = a +:+ m +:+ "</span>" +:+ b) as ->.
  { pose proof (clean_open_keeps_close b Hb) as Hk. revert Hk.
    let v := eval vm_compute in searchmatch_open in change searchmatch_open with v.
    intros Hk. unfold PyStr.replace.
    rewrite (replace_scan_free "<"%char _ EmptyString a _ Ha).
    rewrite replace_scan_match.
    change (EmptyString +:+ ?x) with x.
    rewrite (replace_scan_free "<"%char _ EmptyString m _ Hm).
    now rewrite Hk. }
  assert (PyStr.replace searchmatch_open EmptyString a = a) as ->.
  { let v := eval vm_compute in searchmatch_open in change searchmatch_open with v.
    unfold PyStr.replace. now apply replace_scan_free_all. }
  unfold PyStr.replace. split.
  - rewrite (replace_scan_free "<"%char _ EmptyString a _ Ha).
    rewrite (replace_scan_free "<"%char _ EmptyString m _ Hm).
    rewrite replace_scan_match.
    change (EmptyString +:+ ?x) with x.
    now rewrite (replace_scan_free_all "<"%char _ EmptyString b Hb).
  - now apply replace_scan_free_all.
Qed.

Lemma X3_clean_snippet_unwraps_match_witness :
  _clean_snippet ("a " +:+ searchmatch_open +:+ "quantum" +:+ "</span>" +:+ " b")
  = "a " +:+ "quantum" +:+ " b"
  /\ _clean_snippet "a " = "a ".
Proof.
  apply (X3_clean_snippet_unwraps_match "a " "quantum" " b"); reflexivity.
Defined.

(** ** The composed context *)

Lemma length_append (a b : string) :
  String.length (a +:+ b) = (String.length a + String.length b)%nat.
Proof.
  induction a as [|c a IH]; [reflexivity|].
  rewrite append_cons. cbn [String.length]. now rewrite IH.
Qed.

Lemma join_app (sep : string) (l1 l2 : list string) :
  l1 <> [] -> l2 <> [] ->
  PyStr.join sep (l1 ++ l2)%list
  = PyStr.join sep l1 +:+ sep +:+ PyStr.join sep l2.
Proof.
  intros H1 H2. induction l1 as [|p l1 IH]; [congruence|].
  destruct l1 as [|q l1].
  - destruct l2 as [|r l2]; [congruence|]. reflexivity.
  - change (PyStr.join sep ((p :: q :: l1) ++ l2)%list)
      with (p +:+ sep +:+ PyStr.join sep ((q :: l1) ++ l2)%list).
    rewrite IH by discriminate.
    change (PyStr.join sep (p :: q :: l1))
      with (p +:+ sep +:+ PyStr.join sep (q :: l1)).
    now rewrite !append_assoc.
Qed.

(** X4: the context of two non-empty lists of results, one after the
    other, is the context of the first, a blank line, and the context of
    the second: renderings keep the order of the results. *)
Theorem X4_context_of_concatenation (results1 results2 : list pydict) :
  results1 <> [] -> results2 <> [] ->
  format_wikipedia_context (results1 ++ results2)%list
  = format_wikipedia_context results1
    +:+ PyStr.newline +:+ PyStr.newline
    +:+ format_wikipedia_context results2.
Proof.
  intros H1 H2. unfold format_wikipedia_context.
  destruct results1 as [|r1 l1]; [congruence|].
  destruct results2 as [|r2 l2]; [congruence|].
  change ((r1 :: l1) ++ r2 :: l2)%list with (r1 :: (l1 ++ r2 :: l2))%list.
  cbv iota.
  change (r1 :: (l1 ++ r2 :: l2))%list with ((r1 :: l1) ++ r2 :: l2)%list.
  rewrite map_app, join_app by discriminate.
  now rewrite !append_assoc.
Qed.

Lemma X4_context_of_concatenation_witness :
  format_wikipedia_context
    ([_create_fallback_result "Quantum computing" "a quantum b"]
     ++ [_create_fallback_result "Quantum mechanics" "c quantum d"])%list
  = format_wikipedia_context
      [_create_fallback_result "Quantum computing" "a quantum b"]
    +:+ PyStr.newline +:+ PyStr.newline
    +:+ format_wikipedia_context
          [_create_fallback_result "Quantum mechanics" "c quantum d"].
Proof.
  apply X4_context_of_concatenation; discriminate.
Defined.

Lemma length_take_le (n : nat) (s : string) :
  (String.length (PyStr.take n s) <= n)%nat.
Proof.
  revert s. induction n as [|n IH]; intros [|c s]; cbn [PyStr.take String.length];
    try lia.
  specialize (IH s). lia.
Qed.

Lemma length_format_result (result : pydict) :
  (String.length (format_result result)
   <= 823 + String.length (dict_get result "title" "Unknown"))%nat.
Proof.
  unfold format_result. rewrite !length_append.
  change (String.length "Wikipedia Article: ") with 19%nat.
  change (String.length PyStr.newline) with 1%nat.
  destruct (Nat.ltb_spec 800 (String.length (dict_get result "content" EmptyString))).
  - rewrite length_append.
    pose proof (length_take_le 800 (dict_get result "content" EmptyString)).
    change (String.length "...") with 3%nat. lia.
  - lia.
Qed.

Lemma length_joined_results (r : pydict) (results : list pydict) :
  (String.length (PyStr.join (PyStr.newline +:+ PyStr.newline)
                    (map format_result (r :: results)))
   <= sum_nat (map (fun result =>
                      825 + String.length (dict_get result "title" "Unknown"))%nat
                   (r :: results)))%nat.
Proof.
  revert r. induction results as [|r' results IH]; intros r.
  - cbn [map PyStr.join sum_nat fold_right].
    pose proof (length_format_result r). lia.
  - change (PyStr.join (PyStr.newline +:+ PyStr.newline)
              (map format_result (r :: r' :: results)))
      with (format_result r +:+ (PyStr.newline +:+ PyStr.newline)
            +:+ PyStr.join (PyStr.newline +:+ PyStr.newline)
                  (map format_result (r' :: results))).
    rewrite !length_append.
    change (String.length PyStr.newline) with 1%nat.
    specialize (IH r').
    pose proof (length_format_result r).
    change (sum_nat (map (fun result =>
                      825 + String.length (dict_get result "title" "Unknown"))%nat
                   (r :: r' :: results)))
      with ((825 + String.length (dict_get r "title" "Unknown"))
            + sum_nat (map (fun result =>
                      825 + String.length (dict_get result "title" "Unknown"))%nat
                   (r' :: results)))%nat.
    lia.
Qed.

(** X5: the composed context is bounded: its length is at most the sum,
    over the results, of 825 plus the length of the result's title, so
    the content of a result adds at most 803 characters however long it
    is. *)
Theorem X5_context_length_bound (results : list pydict) :
  (String.length (format_wikipedia_context results)
   <= sum_nat (map (fun result =>
                      825 + String.length (dict_get result "title" "Unknown"))%nat
                   results))%nat.
Proof.
  unfold format_wikipedia_context.
  destruct results as [|r results]; [cbn; lia|].
  apply length_joined_results.
Qed.

(** ** Search results and the calls behind them *)

Lemma resolved_article_keys (title snippet : string)
    (outcome : result (Response SummaryData)) :
  resolved_article title snippet outcome !! "title" = Some title
  /\ is_Some (resolved_article title snippet outcome !! "content")
  /\ is_Some (resolved_article title snippet outcome !! "url").
Proof.
  assert (forall d : pydict, forall c u : string,
             let a := <["title" := title]> (<["content" := c]> (<["url" := u]> d)) in
             a !! "title" = Some title
             /\ is_Some (a !! "content") /\ is_Some (a !! "url")) as K.
  { intros d c u a. subst a. split; [apply lookup_insert_eq|]. split.
    - rewrite lookup_insert_ne by discriminate. rewrite lookup_insert_eq. eauto.
    - rewrite !lookup_insert_ne by discriminate. rewrite lookup_insert_eq. eauto. }
  unfold resolved_article, summary_article, _create_fallback_result.
  destruct outcome as [resp|e]; [|apply K].
  destruct (status_code resp =? 200); [|apply K].
  destruct (json resp); apply K.
Qed.

(** The loop over hits that all have a title: one summary request per
    hit, in order, and one article per hit, in order. *)
Lemma extract_loop_shape (w : world) (items results : list pydict) (t : trace) :
  Forall (fun item => is_Some (item !! "title")) items ->
  exists articles,
    extract_loop w items results t
    = (Ok (results ++ articles)%list,
       (t ++ map (fun item => EvSummaryGet (summary_url (hit_title item))) items)%list)
    /\ Forall2 (fun item article =>
                  article !! "title" = item !! "title"
                  /\ is_Some (article !! "content")
                  /\ is_Some (article !! "url")) items articles.
Proof.
  revert results t. induction items as [|item items IH]; intros results t Hall.
  - exists []. rewrite !app_nil_r. split; [reflexivity | constructor].
  - inversion Hall as [|? ? [title Ht] Hrest]; subst.
    cbn [extract_loop]. unfold bind.
    rewrite (extract_item_resolved w item title results t Ht).
    destruct (IH (results ++ [resolved_article title
                     (_clean_snippet (dict_get item "snippet" EmptyString))
                     (summary_get w t (summary_url title))])%list
                 (t ++ [EvSummaryGet (summary_url title)])%list Hrest)
      as (articles & E & HF).
    exists (resolved_article title
              (_clean_snippet (dict_get item "snippet" EmptyString))
              (summary_get w t (summary_url title)) :: articles).
    rewrite E, <- !app_assoc. split.
    + assert (hit_title item = title) as Hh
        by (unfold hit_title, dict_get; now rewrite Ht).
      cbn [map app]. rewrite Hh. reflexivity.
    + constructor; [|exact HF]. rewrite Ht. apply resolved_article_keys.
Qed.

Lemma search_wikipedia_resolves (w : world) (query : string) (limit status : Z)
    (hits : list pydict) (t : trace) :
  search_get w t query limit = Ok (mkResponse status (Some (search_payload hits))) ->
  ~ (400 <= status < 600) ->
  Forall (fun item => is_Some (item !! "title")) hits ->
  exists articles,
    search_wikipedia w query (Some limit) t
    = (Ok articles,
       (t ++ EvSearchGet query limit
          :: map (fun item => EvSummaryGet (summary_url (hit_title item))) hits)%list)
    /\ Forall2 (fun item article =>
                  article !! "title" = item !! "title"
                  /\ is_Some (article !! "content")
                  /\ is_Some (article !! "url")) hits articles.
Proof.
  intros Hs Hst Hall.
  assert (search_hits (search_get w t query limit) = Some hits) as Hh.
  { rewrite Hs. unfold search_hits. cbn [status_code json].
    destruct (Z.leb_spec 400 status), (Z.ltb_spec status 600);
      try reflexivity; lia. }
  destruct (extract_loop_shape w hits [] (t ++ [EvSearchGet query limit])%list Hall)
    as (articles & E & HF).
  exists articles. split; [|exact HF].
  unfold search_wikipedia, try_except. cbn [default from_option id].
  rewrite (perform_search_hits w query limit t hits Hh), E, <- app_assoc.
  reflexivity.
Qed.

(** X6: when the search request answers with a status that is no
    client or server error and a payload whose hits all have a title,
    [search_wikipedia] returns one article per hit, in the order of the
    hits; each article has the title of its hit, a content and a URL. *)
Theorem X6_one_article_per_hit (w : world) (query : string) (limit status : Z)
    (hits : list pydict) (t : trace) :
  search_get w t query limit = Ok (mkResponse status (Some (search_payload hits))) ->
  ~ (400 <= status < 600) ->
  Forall (fun item => is_Some (item !! "title")) hits ->
  exists articles,
    fst (search_wikipedia w query (Some limit) t) = Ok articles
    /\ length articles = length hits
    /\ Forall2 (fun item article =>
                  article !! "title" = item !! "title"
                  /\ is_Some (article !! "content")
                  /\ is_Some (article !! "url")) hits articles.
Proof.
  intros Hs Hst Hall.
  destruct (search_wikipedia_resolves w query limit status hits t Hs Hst Hall)
    as (articles & E & HF).
  exists articles. rewrite E. split; [reflexivity|].
  split; [symmetry; exact (Forall2_length _ _ _ HF) | exact HF].
Qed.

(** X7: under the same conditions the calls of [search_wikipedia] are
    the one search request followed by exactly one summary request per
    hit, in the order of the hits, each to the summary URL of the hit's
    title; nothing is requested twice. *)
Theorem X7_one_summary_request_per_hit (w : world) (query : string)
    (limit status : Z) (hits : list pydict) (t : trace) :
  search_get w t query limit = Ok (mkResponse status (Some (search_payload hits))) ->
  ~ (400 <= status < 600) ->
  Forall (fun item => is_Some (item !! "title")) hits ->
  snd (search_wikipedia w query (Some limit) t)
  = (t ++ EvSearchGet query limit
       :: map (fun item => EvSummaryGet (summary_url (hit_title item))) hits)%list.
Proof.
  intros Hs Hst Hall.
  destruct (search_wikipedia_resolves w query limit status hits t Hs Hst Hall)
    as (articles & E & _).
  now rewrite E.
Qed.

Lemma two_hits_have_titles :
  Forall (fun item : pydict => is_Some (item !! "title")) two_hits.
Proof.
  repeat constructor; eexists; vm_compute; reflexivity.
Qed.

Lemma X6_one_article_per_hit_witness :
  exists articles,
    fst (search_wikipedia two_articles_world "What is quantum computing?" (Some 2) [])
    = Ok articles
    /\ length articles = 2%nat.
Proof.
  destruct (X6_one_article_per_hit two_articles_world
              "What is quantum computing?" 2 200 two_hits [])
    as (articles & E & L & _).
  - reflexivity.
  - lia.
  - exact two_hits_have_titles.
  - exists articles. split; [exact E | exact L].
Defined.

Lemma X7_one_summary_request_per_hit_witness :
  snd (search_wikipedia two_articles_world "What is quantum computing?" (Some 2) [])
  = [EvSearchGet "What is quantum computing?" 2;
     EvSummaryGet (summary_url "Quantum computing");
     EvSummaryGet (summary_url "Quantum mechanics")].
Proof.
  exact (X7_one_summary_request_per_hit two_articles_world
           "What is quantum computing?" 2 200 two_hits []
           eq_refl ltac:(lia) two_hits_have_titles).
Defined.

(** ** The prompt of a request with context enabled *)

Lemma format_wikipedia_context_truthy (result : pydict) (results : list pydict) :
  PyStr.truthy (format_wikipedia_context (result :: results)) = true.
Proof.
  unfold format_wikipedia_context, format_result.
  destruct results; reflexivity.
Qed.

(** X8: with context enabled, when the search returns no article the
    prompt is the query unchanged and no source is listed; when it
    returns at least one article the prompt is the template around the
    context of all returned articles, never the bare query. *)
Theorem X8_prompt_by_search_result (w : world) (request : QueryRequest)
    (t t1 : trace) (articles : list pydict) :
  use_wikipedia request = true ->
  search_wikipedia w (query request) (Some 2) t = (Ok articles, t1) ->
  exists ctx,
    gather_context w request t = (Ok ctx, t1)
    /\ fst ctx = collect_sources articles
    /\ generation_call request ctx
       = EvCohereChat
           (match articles with
            | [] => query request
            | _ :: _ =>
                prompt_head +:+ format_wikipedia_context articles
                +:+ prompt_question +:+ query request +:+ prompt_tail
            end)
           (max_tokens request) (temperature request).
Proof.
  intros Hu Hs. unfold gather_context, bind. rewrite Hu, Hs.
  destruct articles as [|a articles].
  - eexists. split; [reflexivity|]. split; reflexivity.
  - eexists. split; [reflexivity|]. split; [reflexivity|].
    unfold generation_call, _prepare_message. cbn [snd].
    now rewrite format_wikipedia_context_truthy.
Qed.

Lemma X8_prompt_by_search_result_witness :
  exists ctx,
    gather_context answering_world context_request []
    = (Ok ctx, [EvSearchGet "What is quantum computing?" 2])
    /\ fst ctx = collect_sources []
    /\ generation_call context_request ctx
       = EvCohereChat "What is quantum computing?" 300 (7 # 10).
Proof.
  exact (X8_prompt_by_search_result answering_world context_request []
           [EvSearchGet "What is quantum computing?" 2] [] eq_refl eq_refl).
Defined.

(** ** Success and failure of the chat endpoint *)

(** X9: the chat endpoint returns a response exactly when the
    generation call of the request returns a text and the response is
    the one built from that text, the query, the collected sources and
    the clock, and either saving succeeds or saving raises and the
    rollback returns.  The context lookup before it always returns,
    whatever the outcome of the search and summary requests. *)
Theorem X9_chat_returns_iff (w : world) (request : QueryRequest) (t : trace) :
  exists ctx t1,
    gather_context w request t = (Ok ctx, t1)
    /\ forall chat_response,
         fst (chat_endpoint w request t) = Ok chat_response
         <-> exists response_text,
               generation_outcome w request ctx t1
               = Ok (mkChatResponse (Some response_text))
               /\ chat_response = computed_response w request ctx t1 response_text
               /\ ((exists u t2,
                       save_conversation w request chat_response
                         (t1 ++ [generation_call request ctx])%list = (Ok u, t2))
                   \/ (exists db_error t2 u,
                          save_conversation w request chat_response
                            (t1 ++ [generation_call request ctx])%list
                          = (Raise db_error, t2)
                          /\ db_rollback_outcome w t2 = Ok u)).
Proof.
  destruct (gather_context_total w request t) as (ctx & es & Eg & _).
  exists ctx, (t ++ es)%list. split; [exact Eg|]. intros chat_response.
  pose proof (chat_pipeline_run w request t _ ctx Eg) as Hp.
  destruct (generation_outcome w request ctx (t ++ es)%list) as [[[s|]]|e].
  - fold (computed_response w request ctx (t ++ es)%list s) in Hp.
    rewrite (chat_endpoint_after_pipeline w request t _ _ Hp).
    destruct (save_conversation w request
                (computed_response w request ctx (t ++ es)%list s)
                ((t ++ es) ++ [generation_call request ctx])%list)
      as [[u|db_error] t2] eqn:Hs; cbn [fst].
    + split.
      * intros [= <-]. exists s. split; [reflexivity|]. split; [reflexivity|].
        left. exists u, t2. exact Hs.
      * intros (s' & [= <-] & -> & _). reflexivity.
    + destruct (db_rollback_outcome w t2) as [u|rollback_error] eqn:Hr.
      * split.
        -- intros [= <-]. exists s. split; [reflexivity|]. split; [reflexivity|].
           right. exists db_error, t2, u. split; [exact Hs | exact Hr].
        -- intros (s' & [= <-] & -> & _). reflexivity.
      * split; [discriminate|].
        intros (s' & [= <-] & -> & [(u & t2' & H) | (e' & t2' & u & H & Hr')]).
        -- rewrite Hs in H. discriminate H.
        -- rewrite Hs in H. injection H as <- <-. rewrite Hr in Hr'.
           discriminate Hr'.
  - rewrite (chat_endpoint_pipeline_raises w request t _ _ Hp). cbn [fst].
    split; [discriminate | intros (s' & H & _); discriminate H].
  - rewrite (chat_endpoint_pipeline_raises w request t _ _ Hp). cbn [fst].
    split; [discriminate | intros (s' & H & _); discriminate H].
Qed.

Lemma search_events_not_db (es : trace) :
  only_search_events es -> forallb is_not_db_event es = true.
Proof.
  unfold only_search_events. induction es as [|ev es IH]; [reflexivity|].
  cbn [forallb]. intros H. apply andb_true_iff in H as [Hev Hes].
  rewrite (IH Hes), andb_true_r. destruct ev; try discriminate; reflexivity.
Qed.

(** Saving starts with [db.add] of the row built from the request and
    the response, and adds nothing else. *)
Lemma save_conversation_shape (w : world) (request : QueryRequest)
    (chat_response : QueryResponse) (t1 : trace) :
  exists r es,
    save_conversation w request chat_response t1
    = (r, (t1 ++ EvDbAdd (saved_row request chat_response) :: es)%list)
    /\ forallb is_db_event es = true
    /\ forallb is_not_db_add es = true.
Proof.
  unfold save_conversation. fold (saved_row request chat_response). run_monad.
  destruct (db_add w t1 _) as [u|e].
  - destruct (db_commit w _) as [u'|e'].
    + eexists _, [_; _]. rewrite <- !app_assoc. repeat split.
    + eexists _, [_]. rewrite <- !app_assoc. repeat split.
  - eexists _, []. repeat split.
Qed.

(** X10: when the chat endpoint returns a response, its calls are the
    context lookup and the generation call, none of them to the
    database, then [db.add] of a row that carries the request's query,
    [max_tokens], [temperature] and [use_wikipedia] and the response's
    text, sources and time stamp, then database calls only, with no
    second [db.add]. *)
Theorem X10_saved_row_matches_response (w : world) (request : QueryRequest)
    (t : trace) (chat_response : QueryResponse) :
  fst (chat_endpoint w request t) = Ok chat_response ->
  exists before after,
    snd (chat_endpoint w request t)
    = (t ++ before ++ EvDbAdd (saved_row request chat_response) :: after)%list
    /\ forallb is_not_db_event before = true
    /\ forallb is_db_event after = true
    /\ forallb is_not_db_add after = true.
Proof.
  intros Hr.
  destruct (gather_context_total w request t) as (ctx & es & Eg & Hes).
  pose proof (chat_pipeline_run w request t _ ctx Eg) as Hp.
  destruct (generation_outcome w request ctx (t ++ es)%list) as [[[s|]]|e].
  - rewrite (chat_endpoint_after_pipeline w request t _ _ Hp) in Hr |- *.
    match goal with |- context [save_conversation w request ?r ?t1] =>
      destruct (save_conversation_shape w request r t1) as (o & es' & E & Hdb & Hadd)
    end.
    rewrite E in Hr |- *.
    assert (forallb is_not_db_event (es ++ [generation_call request ctx])%list = true)
      as Hbefore
      by (rewrite forallb_app, (search_events_not_db es Hes); reflexivity).
    destruct o as [u|e]; cbn [fst snd] in *.
    + injection Hr as <-.
      exists (es ++ [generation_call request ctx])%list, es'.
      rewrite <- !app_assoc. split; [reflexivity|].
      split; [exact Hbefore | split; assumption].
    + match type of Hr with
      | match ?o with _ => _ end = _ => destruct o as [u|rollback_error]
      end; [|discriminate Hr].
      injection Hr as <-.
      exists (es ++ [generation_call request ctx])%list, (es' ++ [EvDbRollback])%list.
      rewrite <- !app_assoc. split; [reflexivity|].
      split; [exact Hbefore|].
      rewrite !forallb_app, Hdb, Hadd. split; reflexivity.
  - rewrite (chat_endpoint_pipeline_raises w request t _ _ Hp) in Hr. discriminate.
  - rewrite (chat_endpoint_pipeline_raises w request t _ _ Hp) in Hr. discriminate.
Qed.

Lemma X10_saved_row_matches_response_witness :
  exists before after,
    snd (chat_endpoint answering_world plain_request [])
    = ([] ++ before
       ++ EvDbAdd (saved_row plain_request
                     {| response := "Quantum computing is...";
                        resp_query := "What is quantum computing?";
                        wikipedia_sources := [];
                        timestamp := 1758061800 |}) :: after)%list
    /\ forallb is_not_db_event before = true
    /\ forallb is_db_event after = true
    /\ forallb is_not_db_add after = true.
Proof.
  exact (X10_saved_row_matches_response answering_world plain_request [] _ eq_refl).
Defined.



(** ** The listed sources *)

(** X12: the sources collected from the articles never contain an
    empty string, and each of them is the URL of one of the articles. *)
Theorem X12_sources_are_non_empty_article_urls (articles : list pydict)
    (source : string) :
  In source (collect_sources articles) ->
  source <> EmptyString
  /\ exists article, In article articles /\ article !! "url" = Some source.
Proof.
  unfold collect_sources. intros H.
  apply in_map_iff in H as (article & Hu & Hin).
  apply List.filter_In in Hin as [Hin Ht].
  rewrite Hu in Ht.
  assert (source <> EmptyString) as Hne by (destruct source; [discriminate | discriminate]).
  split; [exact Hne|].
  exists article. split; [exact Hin|].
  unfold dict_get in Hu. destruct (article !! "url") as [u|].
  - cbn in Hu. now subst.
  - cbn in Hu. congruence.
Qed.

Lemma X12_sources_are_non_empty_article_urls_witness :
  "https://en.wikipedia.org/wiki/Quantum_computing" <> EmptyString
  /\ exists article,
       In article [_create_fallback_result "Quantum computing" "a quantum b"]
       /\ article !! "url" = Some "https://en.wikipedia.org/wiki/Quantum_computing".
Proof.
  apply (X12_sources_are_non_empty_article_urls
           [_create_fallback_result "Quantum computing" "a quantum b"]).
  vm_compute. left. reflexivity.
Defined.

(** ** The generation probe and the debug endpoints *)

(** The probe returns a report after its one call. *)
Lemma generation_probe_returns (w : world) (t : trace) :
  exists health,
    cohere_service.health_check w t
    = (Ok health, (t ++ [EvCohereChat "Test" 10 (1 # 10)])%list).
Proof.
  unfold cohere_service.health_check. run_monad.
  destruct (cohere_chat w t "Test" 10 (1 # 10)) as [[[s|]]|e]; cbn [text].
  - destruct (PyStr.truthy s); eexists; reflexivity.
  - eexists; reflexivity.
  - eexists; reflexivity.
Qed.

(** X13: the generation probe never raises and makes exactly one chat
    call, with message "Test", 10 tokens and temperature 0.1.  It
    reports "healthy" exactly when that call returns a non-empty text;
    in every other case (an exception, no text, an empty text) it
    reports "unhealthy". *)
Theorem X13_generation_probe (w : world) (t : trace) :
  exists health,
    cohere_service.health_check w t
    = (Ok health, (t ++ [EvCohereChat "Test" 10 (1 # 10)])%list)
    /\ health !! "service" = Some "cohere_api"
    /\ (health !! "status" = Some "healthy"
        \/ health !! "status" = Some "unhealthy")
    /\ (health !! "status" = Some "healthy"
        <-> exists response_text,
              cohere_chat w t "Test" 10 (1 # 10)
              = Ok (mkChatResponse (Some response_text))
              /\ response_text <> EmptyString).
Proof.
  unfold cohere_service.health_check. run_monad.
  destruct (cohere_chat w t "Test" 10 (1 # 10)) as [[[s|]]|e]; cbn [text].
  - destruct s as [|c s]; cbn [PyStr.truthy].
    + eexists. split; [reflexivity|]. split; [reflexivity|].
      split; [right; reflexivity|].
      split; [discriminate | intros (s' & [= <-] & H); congruence].
    + eexists. split; [reflexivity|]. split; [reflexivity|].
      split; [left; reflexivity|].
      split; [intros _; eexists; split; [reflexivity | discriminate]
             | reflexivity].
  - eexists. split; [reflexivity|]. split; [reflexivity|].
    split; [right; reflexivity|].
    split; [discriminate | intros (s' & H & _); discriminate H].
  - eexists. split; [reflexivity|]. split; [reflexivity|].
    split; [right; reflexivity|].
    split; [discriminate | intros (s' & H & _); discriminate H].
Qed.

(** X14: [debug_cohere] never raises and always answers with the
    top-level status "success", carrying the probe's report; its error
    branch is never taken, so a provider that is down shows only in the
    nested status. *)
Theorem X14_debug_cohere_always_success (w : world) (t : trace) :
  exists health,
    fst (cohere_service.health_check w t) = Ok health
    /\ debug_cohere w t
       = (Ok {| dc_cohere_status := health; dc_status := "success" |},
          (t ++ [EvCohereChat "Test" 10 (1 # 10)])%list).
Proof.
  destruct (generation_probe_returns w t) as (health & E).
  exists health. unfold debug_cohere, try_except, bind. rewrite E.
  split; reflexivity.
Qed.

(** X15: [debug_wikipedia_search] never raises and never answers with
    the status "error": it reports the articles of a search with limit
    3, their number, and "success" when there is at least one article,
    "no_results" otherwise, so a search that failed looks like a search
    without results. *)
Theorem X15_debug_search_never_errors (w : world) (query : string) (t : trace) :
  exists results,
    fst (search_wikipedia w query (Some 3) t) = Ok results
    /\ fst (debug_wikipedia_search w query t)
       = Ok (DebugSearchResults query (Z.of_nat (length results)) results
               (match results with
                | [] => "no_results"
                | _ :: _ => "success"
                end)).
Proof.
  destruct (search_wikipedia_total w query (Some 3) t) as (results & es & E & _).
  exists results. unfold debug_wikipedia_search, try_except, bind. rewrite E.
  split; [reflexivity|]. destruct results; reflexivity.
Qed.

(** ** The history endpoints *)

Module HistoryFacts.

Import History.

Lemma make_item_some (chat : Row) (ts : Z) (t : list db_call) :
  row_timestamp chat = Some ts ->
  make_item chat t = (Ok (item_of chat ts), t).
Proof.
  intros H. unfold make_item, item_of. rewrite H.
  destruct (row_wikipedia_sources chat) as [[|s l]|]; reflexivity.
Qed.

Lemma make_items_all (db_chats : list Row) (t : list db_call) :
  Forall (fun chat => is_Some (row_timestamp chat)) db_chats ->
  exists items,
    make_items db_chats t = (Ok items, t)
    /\ Forall2 (fun chat item =>
                  exists ts, row_timestamp chat = Some ts /\ item = item_of chat ts)
               db_chats items.
Proof.
  induction 1 as [|chat rest [ts Hts] _ (items & E & HF)].
  - exists []. split; [reflexivity | constructor].
  - exists (item_of chat ts :: items).
    cbn [make_items]. unfold sbind. rewrite (make_item_some chat ts t Hts), E.
    split; [reflexivity|]. constructor; [eauto | exact HF].
Qed.

Lemma make_items_null (db_chats : list Row) (t : list db_call) :
  Exists (fun chat => row_timestamp chat = None) db_chats ->
  make_items db_chats t
  = (Raise (mkExn ValidationError "Input should be a valid datetime"), t).
Proof.
  induction db_chats as [|chat rest IH]; intros Hex; [inversion Hex|].
  cbn [make_items]. unfold sbind.
  destruct (row_timestamp chat) as [ts|] eqn:Hts.
  - rewrite (make_item_some chat ts t Hts).
    rewrite IH; [reflexivity|].
    inversion Hex as [? ? H0|? ? H0]; subst; [congruence | exact H0].
  - unfold make_item. rewrite Hts. reflexivity.
Qed.

(** X16: when the count and the selection succeed and every selected
    row has a time stamp, [get_chat_history] makes these two calls and
    returns the count as [total_conversations] and one item per row, in
    the order the selection gave; an item repeats its row's id, query,
    response and time stamp, and lists no sources for a row whose
    sources are NULL. *)
Theorem X16_history_lists_rows_in_order (db : database) (limit offset n : Z)
    (rows : list Row) (t : list db_call) :
  count db t = Ok n ->
  select_recent db (t ++ [CallCount])%list offset limit = Ok rows ->
  Forall (fun chat => is_Some (row_timestamp chat)) rows ->
  exists items,
    get_chat_history db limit offset t
    = (Ok {| history := items; total_conversations := n |},
       (t ++ [CallCount; CallSelect offset limit])%list)
    /\ Forall2 (fun chat item =>
                  exists ts, row_timestamp chat = Some ts /\ item = item_of chat ts)
               rows items.
Proof.
  intros Hc Hs Hall.
  destruct (make_items_all rows
              ((t ++ [CallCount]) ++ [CallSelect offset limit])%list Hall)
    as (items & E & HF).
  exists items. split; [|exact HF].
  unfold get_chat_history. run_session. rewrite Hc, Hs, E, <- app_assoc.
  reflexivity.
Qed.

Lemma X16_history_lists_rows_in_order_witness :
  exists items,
    get_chat_history sample_database 100 0 []
    = (Ok {| history := items; total_conversations := 2 |},
       ([] ++ [CallCount; CallSelect 0 100])%list)
    /\ Forall2 (fun chat item =>
                  exists ts, row_timestamp chat = Some ts /\ item = item_of chat ts)
               sample_rows items.
Proof.
  apply (X16_history_lists_rows_in_order sample_database 100 0 2 sample_rows []).
  - reflexivity.
  - reflexivity.
  - repeat constructor; eexists; reflexivity.
Defined.

(** X17: whenever [get_chat_history] raises, the exception is an HTTP
    500 whose detail is "Error retrieving chat history: " followed by
    the message of the underlying error.  A failing count ends the
    request before any selection is made, and one selected row with a
    NULL time stamp fails the whole request. *)
Theorem X17_history_failures (db : database) (limit offset : Z)
    (t : list db_call) :
  (forall e,
      fst (get_chat_history db limit offset t) = Raise e ->
      exc_type e = HTTPException 500
      /\ exists cause,
           exc_msg e = "Error retrieving chat history: " +:+ str_exn cause)
  /\
  (forall cause,
      count db t = Raise cause ->
      get_chat_history db limit offset t
      = (Raise (mkExn (HTTPException 500)
                  ("Error retrieving chat history: " +:+ str_exn cause)),
         (t ++ [CallCount])%list))
  /\
  (forall n rows,
      count db t = Ok n ->
      select_recent db (t ++ [CallCount])%list offset limit = Ok rows ->
      Exists (fun chat => row_timestamp chat = None) rows ->
      exists cause,
        exc_type cause = ValidationError
        /\ fst (get_chat_history db limit offset t)
           = Raise (mkExn (HTTPException 500)
                      ("Error retrieving chat history: " +:+ str_exn cause))).
Proof.
  split; [|split].
  - intros e. unfold get_chat_history. run_session.
    destruct (count db t) as [n|e0].
    + destruct (select_recent db _ offset limit) as [rows|e1].
      * destruct (make_items rows _) as [[items|e2] t2]; cbn [fst].
        -- discriminate.
        -- intros [= <-]. split; [reflexivity | exists e2; reflexivity].
      * cbn [fst]. intros [= <-]. split; [reflexivity | exists e1; reflexivity].
    + cbn [fst]. intros [= <-]. split; [reflexivity | exists e0; reflexivity].
  - intros cause Hc. unfold get_chat_history. run_session. rewrite Hc.
    reflexivity.
  - intros n rows Hc Hs Hex. unfold get_chat_history. run_session.
    rewrite Hc, Hs, (make_items_null rows _ Hex).
    eexists (mkExn ValidationError _). split; reflexivity.
Qed.

(** The decimal text of a count. *)
Example str_int_ex : str_int 2 = "2" /\ str_int 0 = "0" /\ str_int 1234 = "1234".
Proof. repeat split; reflexivity. Qed.

(** X18: [clear_chat_history] returns exactly when the count, the
    deletion and the commit all succeed; it makes these three calls in
    this order and its message names the count read before the
    deletion. *)
Theorem X18_clear_history_success (db : database) (t : list db_call)
    (message : string) :
  fst (clear_chat_history db t) = Ok message
  <-> exists n,
        count db t = Ok n
        /\ is_Some_ok (delete_all db (t ++ [CallCount])%list)
        /\ commit db (t ++ [CallCount; CallDelete])%list = Ok tt
        /\ message = "Chat history cleared successfully. Deleted "
                     +:+ str_int n +:+ " records."
        /\ snd (clear_chat_history db t)
           = (t ++ [CallCount; CallDelete; CallCommit])%list.
Proof.
  unfold clear_chat_history, rollback, is_Some_ok. run_session.
  rewrite <- ?app_assoc. cbn [app].
  destruct (count db t) as [n|e0]; cbn [fst snd].
  - destruct (delete_all db (t ++ [CallCount])%list) as [d|e1]; cbn [fst snd].
    + destruct (commit db (t ++ [CallCount; CallDelete])%list) as [[]|e2];
        cbn [fst snd].
      * split.
        -- intros [= <-]. exists n. repeat split; eauto.
        -- intros (n' & [= <-] & _ & _ & -> & _). reflexivity.
      * destruct (rollback_outcome db _);
          (split; [discriminate | intros (n' & _ & _ & H & _); discriminate H]).
    + destruct (rollback_outcome db _);
        (split; [discriminate | intros (n' & _ & [d H] & _); discriminate H]).
  - destruct (rollback_outcome db _);
      (split; [discriminate | intros (n' & H & _); discriminate H]).
Qed.



(** The two ways [clear_chat_history] fails, on sample databases. *)
Example clear_history_failures :
  clear_chat_history broken_delete_database []
  = (Raise (mkExn (HTTPException 500)
              "Error clearing chat history: connection refused"),
     [CallCount; CallDelete; CallRollback])
  /\ clear_chat_history lost_database []
     = (Raise (mkExn DatabaseError "server closed the connection"),
        [CallCount; CallDelete; CallRollback]).
Proof. split; reflexivity. Qed.

End HistoryFacts.

(** ** URLs built from titles *)

Lemma map_chars_space_free (s : string) :
  free_of " "%char (PyStr.map_chars space_to_underscore s) = true.
Proof.
  induction s as [|c s IH]; [reflexivity|].
  cbn [PyStr.map_chars free_of]. rewrite IH, andb_true_r.
  unfold space_to_underscore.
  destruct (Ascii.eqb c " "%char) eqn:E; [reflexivity|].
  now rewrite E.
Qed.

Lemma free_of_append (c : ascii) (a b : string) :
  free_of c (a +:+ b) = free_of c a && free_of c b.
Proof.
  induction a as [|x a IH]; [reflexivity|].
  rewrite append_cons. cbn [free_of]. now rewrite IH, andb_assoc.
Qed.

(** X20: the URL of the summary request and the URL of a fallback
    article contain no space, whatever the title: each is its base URL
    followed by the title with every space replaced by an underscore. *)
Theorem X20_urls_have_no_space (title snippet : string) :
  summary_url title
  = "https://en.wikipedia.org/api/rest_v1/page/summary/"
    +:+ PyStr.map_chars space_to_underscore title
  /\ free_of " "%char (summary_url title) = true
  /\ exists url,
       _create_fallback_result title snippet !! "url" = Some url
       /\ url = "https://en.wikipedia.org/wiki/"
                +:+ PyStr.map_chars space_to_underscore title
       /\ free_of " "%char url = true.
Proof.
  unfold summary_url, base_url. rewrite replace_space_underscore.
  split; [reflexivity|]. split.
  - rewrite free_of_append, map_chars_space_free. reflexivity.
  - eexists. split; [|split; [reflexivity|]].
    + unfold _create_fallback_result. rewrite replace_space_underscore.
      rewrite !lookup_insert_ne by discriminate. apply lookup_insert_eq.
    + rewrite free_of_append, map_chars_space_free. reflexivity.
Qed.

(** ** The logged database target *)

Lemma split_char_cons (c : ascii) (s : string) :
  exists p ps, split_char c s = p :: ps /\ free_of c p = true.
Proof.
  induction s as [|a s (p & ps & E & Hp)]; [exists EmptyString, []; split; reflexivity|].
  cbn [split_char]. destruct (Ascii.eqb a c) eqn:Ha.
  - exists EmptyString, (split_char c s). split; reflexivity.
  - rewrite E. exists (String a p), ps. split; [reflexivity|].
    cbn [free_of]. now rewrite Ha, Hp.
Qed.

Lemma split_char_free (c : ascii) (s : string) :
  free_of c s = true -> split_char c s = [s].
Proof.
  induction s as [|a s IH]; [reflexivity|].
  cbn [free_of split_char]. intros H. apply andb_true_iff in H as [Ha Hs].
  apply negb_true_iff in Ha. now rewrite Ha, (IH Hs).
Qed.

Lemma split_char_at (c : ascii) (a rest : string) :
  free_of c a = true ->
  split_char c (a +:+ String c rest) = a :: split_char c rest.
Proof.
  induction a as [|x a IH].
  - intros _. change (EmptyString +:+ String c rest) with (String c rest).
    cbn [split_char]. now rewrite Ascii.eqb_refl.
  - cbn [free_of]. intros H. apply andb_true_iff in H as [Hx Ha].
    apply negb_true_iff in Hx.
    rewrite append_cons. cbn [split_char]. now rewrite Hx, (IH Ha).
Qed.

Lemma contains_char_at (c : ascii) (a rest : string) :
  contains_char c (a +:+ String c rest) = true.
Proof.
  induction a as [|x a IH].
  - change (EmptyString +:+ String c rest) with (String c rest).
    cbn [contains_char]. now rewrite Ascii.eqb_refl.
  - rewrite append_cons. cbn [contains_char]. now rewrite IH, orb_true_r.
Qed.

Lemma contains_char_free (c : ascii) (s : string) :
  free_of c s = true -> contains_char c s = false.
Proof.
  induction s as [|a s IH]; [reflexivity|].
  cbn [free_of contains_char]. intros H. apply andb_true_iff in H as [Ha Hs].
  apply negb_true_iff in Ha. now rewrite Ha, (IH Hs).
Qed.

(** X21: for a database URL made of a part without "@", an "@", and a
    rest, the text named in the start-up log line is the segment of the
    rest up to its first "@" (the whole rest when it has none): it is
    determined by the rest alone and contains no "@", so nothing that
    stands before the first "@" of the URL is logged.  A URL without "@"
    is logged as "local database".  The index 1 is never out of range. *)
Theorem X21_logged_database_target (credentials rest : string) :
  free_of "@"%char credentials = true ->
  (exists target,
      logged_database_target (credentials +:+ "@" +:+ rest) = Some target
      /\ split_char "@"%char rest = target :: tail (split_char "@"%char rest)
      /\ free_of "@"%char target = true
      /\ (free_of "@"%char rest = true -> target = rest))
  /\ logged_database_target credentials = Some "local database".
Proof.
  intros Hc. split.
  - unfold logged_database_target.
    change (credentials +:+ "@" +:+ rest)
      with (credentials +:+ String "@"%char rest).
    rewrite contains_char_at, (split_char_at _ _ _ Hc).
    destruct (split_char_cons "@"%char rest) as (p & ps & E & Hp).
    exists p. rewrite E. cbn [nth_error tail]. repeat split; try assumption.
    intros Hr. rewrite (split_char_free _ _ Hr) in E. now injection E.
  - unfold logged_database_target. now rewrite (contains_char_free _ _ Hc).
Qed.

Lemma X21_logged_database_target_witness :
  (exists target,
      logged_database_target
        ("postgresql://postgres:password" +:+ "@" +:+ "localhost:5432/cohere_chat")
      = Some target
      /\ target = "localhost:5432/cohere_chat")
  /\ logged_database_target "postgresql://postgres:password"
     = Some "local database".
Proof.
  destruct (X21_logged_database_target "postgresql://postgres:password"
              "localhost:5432/cohere_chat" eq_refl)
    as [(target & E & _ & _ & H) L].
  split; [|exact L].
  exists target. split; [exact E | exact (H eq_refl)].
Defined.
